(** * chzzk-discord-watcher: the event detector of [monitor_chzzk.py]

    A shallow embedding of [process_streamer] (src/monitor_chzzk.py):
    the part that compares the stored state of a channel with a freshly
    fetched observation, lists the events to notify and computes the state
    to store.

    - Python values are the JSON values that an observation field or a field
      of the stored state can hold: null, booleans, integers, floats,
      strings, and arrays of integers (the only arrays the program itself
      stores).  JSON objects and other arrays as field values are outside
      the model.
    - [current] and [last] are Python dicts: finite maps from keys to values,
      read with [.get].
    - [new_state] is a dict literal with five fixed keys: a record.
    - Operations that raise in Python return [Raise] here. *)

From Stdlib Require Import ZArith QArith Bool.
From stdpp Require Import base gmap sets list strings sorting.

Local Open Scope Z_scope.
#[local] Set Warnings "-clear-no-such-hyp".

(** ** Python values *)

(** A float: NaN, an infinity, or a finite double, which is a rational. *)
Inductive pyfloat :=
  | FNaN
  | FInf (positive_sign : bool)
  | FFin (q : Q).

Inductive pyval :=
  | PNone
  | PBool (b : bool)
  | PInt (z : Z)
  | PFloat (f : pyfloat)
  | PStr (s : string)
  | PList (l : list Z).

(** [bool] is a subclass of [int]: [True] is the integer 1. *)
Definition Z_of_bool (b : bool) : Z := if b then 1 else 0.

Inductive number :=
  | NInt (z : Z)
  | NFloat (f : pyfloat).

(** The numeric view of a value: what [isinstance(v, (int, float))] accepts. *)
Definition as_number (v : pyval) : option number :=
  match v with
  | PBool b => Some (NInt (Z_of_bool b))
  | PInt z => Some (NInt z)
  | PFloat f => Some (NFloat f)
  | _ => None
  end.

Definition isinstance_int_float (v : pyval) : bool :=
  match as_number v with Some _ => true | None => false end.

Definition is_not_None (v : pyval) : bool :=
  match v with PNone => false | _ => true end.

(** Truth value of a Python object. *)
Definition py_truthy (v : pyval) : bool :=
  match v with
  | PNone => false
  | PBool b => b
  | PInt z => negb (z =? 0)
  | PFloat FNaN => true
  | PFloat (FInf _) => true
  | PFloat (FFin q) => negb (Qeq_bool q 0)
  | PStr s => negb (bool_decide (s = ""))
  | PList l => negb (bool_decide (l = []))
  end.

(** [a or b] *)
Definition py_or (a b : pyval) : pyval := if py_truthy a then a else b.

Definition number_eq (m n : number) : bool :=
  match m, n with
  | NInt a, NInt b => a =? b
  | NInt a, NFloat (FFin q) => Qeq_bool (inject_Z a) q
  | NFloat (FFin q), NInt b => Qeq_bool q (inject_Z b)
  | NFloat (FFin p), NFloat (FFin q) => Qeq_bool p q
  | NFloat (FInf a), NFloat (FInf b) => Bool.eqb a b
  | _, _ => false
  end.

(** [a == b] *)
Definition py_eq (a b : pyval) : bool :=
  match as_number a, as_number b with
  | Some m, Some n => number_eq m n
  | None, None =>
      match a, b with
      | PNone, PNone => true
      | PStr s, PStr t => bool_decide (s = t)
      | PList l, PList m => bool_decide (l = m)
      | _, _ => false
      end
  | _, _ => false
  end.

(** [a != b] *)
Definition py_ne (a b : pyval) : bool := negb (py_eq a b).

(** [n >= th] for a number [n] and an integer threshold [th]; comparisons
    between an int and a float are exact in Python. *)
Definition number_ge (n : number) (th : Z) : bool :=
  match n with
  | NInt z => th <=? z
  | NFloat FNaN => false
  | NFloat (FInf s) => s
  | NFloat (FFin q) => Qle_bool (inject_Z th) q
  end.

(** ** Exceptions *)

Inductive exn := TypeError.

Inductive result (A : Type) :=
  | Ok (a : A)
  | Raise (e : exn).
Arguments Ok {A} a.
Arguments Raise {A} e.

#[global] Instance result_ret : MRet result := λ A a, Ok a.
#[global] Instance result_bind : MBind result := λ A B f r,
  match r with
  | Ok a => f a
  | Raise e => Raise e
  end.

(** [v >= th]: ordering a non-number against an int raises [TypeError]. *)
Definition py_ge (v : pyval) (th : Z) : result bool :=
  match as_number v with
  | Some n => Ok (number_ge n th)
  | None => Raise TypeError
  end.

(** ** Dicts *)

Abbreviation pydict := (gmap string pyval).

(** [d.get(k)] *)
Definition get (d : pydict) (k : string) : pyval :=
  match d !! k with Some v => v | None => PNone end.

(** [d.get(k, dflt)] *)
Definition get_or (d : pydict) (k : string) (dflt : pyval) : pyval :=
  match d !! k with Some v => v | None => dflt end.

(** ** Sets built by [set(...)] *)

(** [set(v)] is a set of integers when [v] is an array of integers and the
    set of the characters of [v] when [v] is a string. *)
Inductive pyset :=
  | SetInts (X : gset Z)
  | SetChars (s : string).

Definition py_set (v : pyval) : result pyset :=
  match v with
  | PList l => Ok (SetInts (list_to_set l))
  | PStr s => Ok (SetChars s)
  | PNone | PBool _ | PInt _ | PFloat _ => Raise TypeError
  end.

(** [th in passed], for an integer [th]; no character equals an integer. *)
Definition py_in (th : Z) (passed : pyset) : bool :=
  match passed with
  | SetInts X => bool_decide (th ∈ X)
  | SetChars _ => false
  end.

(** [sorted(xs)] on integers. *)
Definition sorted (xs : list Z) : list Z := merge_sort Z.le xs.

(** [sorted(passed.union(to_pass))] for a non-empty [to_pass = th :: rest]:
    ordering a character against an integer raises [TypeError]. *)
Definition sorted_union (passed : pyset) (th : Z) (rest : list Z) : result pyval :=
  match passed with
  | SetInts X => Ok (PList (sorted (elements (X ∪ list_to_set (th :: rest)))))
  | SetChars s =>
      if bool_decide (s = "")
      then Ok (PList (sorted (elements (list_to_set (th :: rest) : gset Z))))
      else Raise TypeError
  end.

(** ** The state of a channel and the events *)

(** The dict literal [new_state]. *)
Record channel_state := {
  is_live : pyval;
  title : pyval;
  category : pyval;
  viewers : pyval;
  passed_thresholds : pyval;
}.

Definition set_title (v : pyval) (s : channel_state) : channel_state :=
  {| is_live := is_live s; title := v; category := category s;
     viewers := viewers s; passed_thresholds := passed_thresholds s |}.

Definition set_category (v : pyval) (s : channel_state) : channel_state :=
  {| is_live := is_live s; title := title s; category := v;
     viewers := viewers s; passed_thresholds := passed_thresholds s |}.

Definition set_passed_thresholds (v : pyval) (s : channel_state) : channel_state :=
  {| is_live := is_live s; title := title s; category := category s;
     viewers := viewers s; passed_thresholds := v |}.

(** The dict that is stored (and read back as [last] by the next run). *)
Definition to_dict (s : channel_state) : pydict :=
  <["is_live" := is_live s]>
  (<["title" := title s]>
  (<["category" := category s]>
  (<["viewers" := viewers s]>
  (<["passed_thresholds" := passed_thresholds s]> ∅)))).

(** The dicts [{"type": "start"}], ..., [{"type": "threshold_cross",
    "threshold": th}]. *)
Inductive event :=
  | EvStart
  | EvEnd
  | EvTitleChange
  | EvCategoryChange
  | EvThresholdCross (th : Z).

#[global] Instance event_eq_dec : EqDecision event.
Proof. solve_decision. Defined.

Definition is_start (ev : event) : bool :=
  match ev with EvStart => true | _ => false end.

(** ** The detector: lines 253-305 of [process_streamer] *)

(** The loop [for th in thresholds: if viewers >= th and th not in passed:
    to_pass.append(th)]. *)
Fixpoint collect_to_pass (viewers : pyval) (passed : pyset)
    (thresholds : list Z) (to_pass : list Z) : result (list Z) :=
  match thresholds with
  | [] => Ok to_pass
  | th :: rest =>
      ge ← py_ge viewers th;
      collect_to_pass viewers passed rest
        (if ge && negb (py_in th passed) then to_pass ++ [th] else to_pass)
  end.

(** Lines 254-261: the dict literal. *)
Definition initial_state (last current : pydict) : channel_state :=
  {| is_live := get_or current "is_live" (PBool false);
     title := py_or (get current "title") (get last "title");
     category := py_or (get current "category") (get last "category");
     viewers := get current "viewers";
     passed_thresholds := get_or last "passed_thresholds" (PList []) |}.

(** Lines 264-272: start and end events. *)
Definition start_end (last : pydict) (new_state : channel_state)
    (events : list event) : list event :=
  if py_truthy (get last "is_live") then
    if negb (py_truthy (is_live new_state)) then events ++ [EvEnd] else events
  else
    if py_truthy (is_live new_state) then events ++ [EvStart] else events.

(** Lines 274-283: title and category changes, only while live. *)
Definition title_category (last current : pydict) (new_state : channel_state)
    (events : list event) : channel_state * list event :=
  if py_truthy (is_live new_state) && py_truthy (get last "is_live") then
    let new_title := get current "title" in
    let '(new_state, events) :=
      if py_truthy new_title && py_ne new_title (get last "title")
      then (set_title new_title new_state, events ++ [EvTitleChange])
      else (new_state, events) in
    let new_cat := get current "category" in
    if py_truthy new_cat && py_ne new_cat (get last "category")
    then (set_category new_cat new_state, events ++ [EvCategoryChange])
    else (new_state, events)
  else (new_state, events).

(** Lines 285-290: a fresh start takes title and category from [current] and
    resets the list of passed thresholds. *)
Definition fresh_start (current : pydict) (new_state : channel_state)
    (events : list event) : channel_state :=
  if existsb is_start events then
    let new_state :=
      set_title (py_or (get current "title") (title new_state)) new_state in
    let new_state :=
      set_category (py_or (get current "category") (category new_state))
        new_state in
    set_passed_thresholds (PList []) new_state
  else new_state.

(** Lines 292-305: viewer thresholds. *)
Definition viewer_thresholds (thresholds : list Z) (current : pydict)
    (new_state : channel_state) (events : list event)
    : result (list event * channel_state) :=
  if py_truthy (is_live new_state) then
    let viewers := get current "viewers" in
    if is_not_None viewers && isinstance_int_float viewers then
      passed ← py_set (passed_thresholds new_state);
      to_pass ← collect_to_pass viewers passed thresholds [];
      match to_pass with
      | [] => Ok (events, new_state)
      | th :: rest =>
          new_passed ← sorted_union passed th rest;
          Ok (events ++ (EvThresholdCross <$> sorted to_pass),
              set_passed_thresholds new_passed new_state)
      end
    else Ok (events, new_state)
  else Ok (events, new_state).

(** Lines 253-305 of [process_streamer]: from the stored state [last], the
    fetched observation [current] and the thresholds to the events and the
    state to store. *)
Definition detect (thresholds : list Z) (last current : pydict)
    : result (list event * channel_state) :=
  let new_state := initial_state last current in
  let events := start_end last new_state [] in
  let '(new_state, events) := title_category last current new_state events in
  let new_state := fresh_start current new_state events in
  viewer_thresholds thresholds current new_state events.

(** ** The whole of [process_streamer] *)

(** An entry of [streamers] in config.yaml: the two keys that
    [process_streamer] reads itself, and the keys that only the message
    formatter reads. *)
Record streamer_config := {
  channel_id : option string;
  webhook_url : option string;
  name : pyval;
  chzzk_url : pyval;
  discord_role_id : pyval;
}.

(** What [session.post] does with a message. *)
Inductive post_outcome :=
  | Responded (status : Z) (text : string)
  | PostRaised (error : string).

(** The lines that [send_discord_message] prints. *)
Inductive printed :=
  | PrintStatus (status : Z) (text : string)
  | PrintFailure (error : string).

(** [send_discord_message]: an answer with a status of 400 or more is
    printed, an exception is caught and printed; it returns normally in
    every case. *)
Definition send_discord_message (reply : post_outcome) : list printed :=
  match reply with
  | Responded status text =>
      if 400 <=? status then [PrintStatus status text] else []
  | PostRaised e => [PrintFailure e]
  end.

Abbreviation store := (gmap string pydict).

Section notifications.
(** The payload of a notification is opaque here: [format_discord_message]
    builds it from its arguments by string formatting and never raises. *)
Context {message : Type}.
Variable format_discord_message :
  event → streamer_config → pydict → pydict → message.
(** The network: the outcome of the [n]-th post of this call. *)
Variable network : nat → string → message → post_outcome.

Record effects := {
  posted : list (string * message);
  output : list printed;
}.

(** The loop [for ev in events: msg = format(...); await send(...)]. *)
Fixpoint send_all (streamer : streamer_config) (webhook : string)
    (current last : pydict) (events : list event) (fx : effects) : effects :=
  match events with
  | [] => fx
  | ev :: rest =>
      let msg := format_discord_message ev streamer current last in
      let reply := network (length (posted fx)) webhook msg in
      send_all streamer webhook current last rest
        {| posted := posted fx ++ [(webhook, msg)];
           output := output fx ++ send_discord_message reply |}
  end.

(** [process_streamer], with the observation that [fetch_live_info]
    returned as the argument [current]. *)
Definition process_streamer (streamer : streamer_config)
    (thresholds : list Z) (current : pydict) (state : store)
    : result (store * effects) :=
  let no_effects := {| posted := []; output := [] |} in
  match channel_id streamer with
  | None => Ok (state, no_effects)
  | Some streamer_key =>
      if bool_decide (streamer_key = "") then Ok (state, no_effects)
      else
        let last := default ∅ (state !! streamer_key) in
        '(events, new_state) ← detect thresholds last current;
        let fx :=
          match webhook_url streamer, events with
          | Some webhook, _ :: _ =>
              if bool_decide (webhook = "") then no_effects
              else send_all streamer webhook current last events no_effects
          | _, _ => no_effects
          end in
        Ok (<[streamer_key := to_dict new_state]> state, fx)
  end.
End notifications.

(** ** [fetch_live_info] *)

(** The value of ["content"] in an answer: an object (with the members that
    the code reads), or a value that has no [.get] (null, a number, a text,
    an array). *)
Inductive json_content :=
  | ContentObject (d : pydict)
  | ContentOther.

(** What [resp.json()] returns: an object, with its ["content"] member when
    it has one, or a value that has no [.get]. *)
Inductive json_data :=
  | DataObject (content : option json_content)
  | DataOther.

(** One request: [session.get] raises (network error, timeout), or answers
    with a status and a body; [body] is [None] when [resp.json()] raises. *)
Inductive http_reply :=
  | GetRaised
  | Answered (status : Z) (body : option json_data).

(** [data.get("content", {})] of an answer with status 200, as the dict that
    [content.get] reads; [None] when the attempt returns nothing (another
    status) or raises inside its [try] (the exception is passed over). *)
Definition reply_content (reply : http_reply) : option pydict :=
  match reply with
  | GetRaised => None
  | Answered status body =>
      if status =? 200 then
        match body with
        | Some (DataObject None) => Some ∅
        | Some (DataObject (Some (ContentObject d))) => Some d
        | Some (DataObject (Some ContentOther)) => None
        | Some DataOther => None
        | None => None
        end
      else None
  end.

(** The dict [{"is_live": ..., "title": ..., "category": ..., "viewers": ...,
    "status": ...}] that an attempt returns. *)
Definition live_info (is_live : bool) (title category viewers status : pyval)
    : pydict :=
  <["is_live" := PBool is_live]>
  (<["title" := title]>
  (<["category" := category]>
  (<["viewers" := viewers]>
  (<["status" := status]> ∅)))).

Section fetch_live_info.
(** Python's [str.upper]. *)
Variable upper : string → string.

(** [status.upper()]: only a text has the method, anything else raises
    [AttributeError]. *)
Definition status_upper (status : pyval) : option string :=
  match status with
  | PStr s => Some (upper s)
  | _ => None
  end.

(** Lines 84-100, first attempt ([live-detail]). *)
Definition live_detail (content : pydict) : option pydict :=
  let status := get content "status" in
  is_live ←
    (if py_truthy status then
       up ← status_upper status;
       Some (negb (bool_decide (up ∈ ["CLOSE"; "ENDED"; "IDLE"])))
     else Some false);
  let title := get content "liveTitle" in
  let category :=
    py_or (get content "liveCategoryValue") (get content "liveCategory") in
  let viewers :=
    py_or (get content "concurrentUserCount") (get content "watcherCount") in
  Some (live_info is_live title category viewers status).

(** Lines 111-120, second attempt (the channel itself). *)
Definition channel_open (content : pydict) : pydict :=
  let is_live := py_truthy (get content "openLive") in
  live_info is_live PNone PNone PNone PNone.

(** Lines 130-140, third attempt ([live-status]). *)
Definition live_status (content : pydict) : option pydict :=
  let status := get content "status" in
  is_live ←
    (if py_truthy status then
       up ← status_upper status;
       Some (bool_decide (up = "ACTIVE"))
     else Some false);
  Some (live_info is_live PNone PNone PNone status).

(** [fetch_live_info], with the replies of the three endpoints as arguments
    (the second and third are only asked when the attempts before them gave
    nothing). *)
Definition fetch_live_info (detail channel polling : http_reply) : pydict :=
  match reply_content detail ≫= live_detail with
  | Some info => info
  | None =>
      match channel_open <$> reply_content channel with
      | Some info => info
      | None =>
          match reply_content polling ≫= live_status with
          | Some info => info
          | None => <["is_live" := PBool false]> ∅
          end
      end
  end.
End fetch_live_info.

(** ** [load_config]: webhook placeholders *)

(** The string methods used here work on characters, so a text is taken as
    [str] has it: the sequence of its Unicode code points.  (Elsewhere in
    this file a text is only compared and tested for emptiness, and is kept
    as a [string].) *)

(** The code points of a literal in ASCII. *)
Definition text (s : string) : list N :=
  Ascii.N_of_ascii <$> String.list_ascii_of_string s.

(** [str.isspace] on one character, which is the whitespace that
    [str.strip] removes: U+0009-000D, U+001C-001F, U+0020, U+0085, U+00A0,
    U+1680, U+2000-200A, U+2028, U+2029, U+202F, U+205F and U+3000. *)
Definition str_isspace (c : N) : bool :=
  ((9 <=? c) && (c <=? 13)
   || (28 <=? c) && (c <=? 31)
   || (c =? 32) || (c =? 133) || (c =? 160) || (c =? 5760)
   || (8192 <=? c) && (c <=? 8202)
   || (c =? 8232) || (c =? 8233) || (c =? 8239) || (c =? 8287)
   || (c =? 12288))%N.

Section load_config.
(** The whitespace test; [load_config] is the instance at [str_isspace]. *)
Variable isspace : N → bool.

(** The characters of a text after its leading whitespace. *)
Fixpoint lstrip (cs : list N) : list N :=
  match cs with
  | [] => []
  | c :: rest => if isspace c then lstrip rest else cs
  end.

(** [s.strip()]: without leading and trailing whitespace. *)
Definition strip (s : list N) : list N :=
  reverse (lstrip (reverse (lstrip s))).

(** [s.startswith(needle)] *)
Fixpoint starts_with (needle s : list N) : bool :=
  match needle, s with
  | [], _ => true
  | _ :: _, [] => false
  | a :: needle', b :: s' => (a =? b)%N && starts_with needle' s'
  end.

(** [needle in s] *)
Fixpoint contains (needle s : list N) : bool :=
  starts_with needle s
  || match s with
     | [] => false
     | _ :: rest => contains needle rest
     end.

(** [s[2:-1]] *)
Definition slice_2_m1 (s : list N) : list N := removelast (drop 2 s).

(** Lines 157-163, on the ["webhook_url"] of one streamer; [None] is a
    missing or null webhook. *)
Definition expand_webhook (environ : gmap (list N) (list N))
    (webhook : option (list N)) : option (list N) :=
  match webhook with
  | Some url =>
      if contains (text "${") url then
        let key := slice_2_m1 (strip url) in
        match environ !! key with
        | Some env_val =>
            if bool_decide (env_val = []) then webhook else Some env_val
        | None => webhook
        end
      else webhook
  | None => None
  end.
End load_config.

(** ** [main]: the thresholds *)

Inductive int_error := ValueError | OverflowError.

(** [int(x)] of a number: a float is truncated towards zero, NaN and the
    infinities raise. *)
Definition py_int (n : number) : int_error + Z :=
  match n with
  | NInt z => inr z
  | NFloat FNaN => inl ValueError
  | NFloat (FInf _) => inl OverflowError
  | NFloat (FFin q) => inr (Z.quot (Qnum q) (Z.pos (Qden q)))
  end.

(** [int(x) for x in thresholds if isinstance(x, (int, float))] *)
Fixpoint threshold_ints (thresholds : list pyval) : int_error + list Z :=
  match thresholds with
  | [] => inr []
  | x :: rest =>
      match as_number x with
      | Some n =>
          match py_int n with
          | inr z =>
              match threshold_ints rest with
              | inr zs => inr (z :: zs)
              | inl e => inl e
              end
          | inl e => inl e
          end
      | None => threshold_ints rest
      end
  end.

(** Line 329: [sorted(set(int(x) for x in thresholds if isinstance(x, (int,
    float))))]. *)
Definition main_thresholds (thresholds : list pyval) : int_error + list Z :=
  match threshold_ints thresholds with
  | inr zs => inr (sorted (elements (list_to_set zs : gset Z)))
  | inl e => inl e
  end.

(** ** Definitions used in the statements *)

(** The list stored under ["passed_thresholds"], [[]] when the key is
    absent: the stored state is read as the data model has it when this is a
    list of integers. *)
Definition stored_passed (last : pydict) (l : list Z) : Prop :=
  get_or last "passed_thresholds" (PList []) = PList l.

(** A float NaN: the one value that [!=] tells apart from itself. *)
Definition is_nan (v : pyval) : bool :=
  match v with PFloat FNaN => true | _ => false end.

Definition is_string (v : pyval) : bool :=
  match v with PStr _ => true | _ => false end.

(** [viewers >= th] where it is defined, [false] elsewhere. *)
Definition viewers_ge (v : pyval) (th : Z) : bool :=
  match as_number v with Some n => number_ge n th | None => false end.

(** Whether the stored state was live, and whether the observation is. *)
Definition was_live (last : pydict) : bool := py_truthy (get last "is_live").
Definition now_live (current : pydict) : bool :=
  py_truthy (get_or current "is_live" (PBool false)).

(** The thresholds that an observation crosses, given the list [l] of the
    thresholds already passed. *)
Definition crossed (thresholds : list Z) (current : pydict) (l : list Z)
    : list Z :=
  if now_live current
     && (is_not_None (get current "viewers")
         && isinstance_int_float (get current "viewers"))
  then List.filter
         (λ th, viewers_ge (get current "viewers") th
                && negb (bool_decide (th ∈ (list_to_set l : gset Z))))
         thresholds
  else [].

(** The events that come before the threshold events. *)
Definition liveness_events (last current : pydict) : list event :=
  if was_live last
  then (if now_live current then [] else [EvEnd])
  else (if now_live current then [EvStart] else []).

Definition title_events (last current : pydict) : list event :=
  if was_live last && now_live current
     && (py_truthy (get current "title")
         && py_ne (get current "title") (get last "title"))
  then [EvTitleChange] else [].

Definition category_events (last current : pydict) : list event :=
  if was_live last && now_live current
     && (py_truthy (get current "category")
         && py_ne (get current "category") (get last "category"))
  then [EvCategoryChange] else [].

(** The passed list that the threshold step starts from. *)
Definition passed_before (last current : pydict) (l : list Z) : list Z :=
  if negb (was_live last) && now_live current then [] else l.

Definition next_passed (l to_pass : list Z) : list Z :=
  match to_pass with
  | [] => l
  | _ :: _ => sorted (elements (list_to_set l ∪ list_to_set to_pass : gset Z))
  end.

(** The thresholds of the threshold events of a list, in order. *)
Definition crossings_of (events : list event) : list Z :=
  omap (λ ev, match ev with EvThresholdCross th => Some th | _ => None end)
    events.

(** The start and end events of a list, in order. *)
Definition liveness_trace (events : list event) : list event :=
  List.filter
    (λ ev, match ev with EvStart | EvEnd => true | _ => false end) events.

(** A trace of start and end events that alternates, beginning with an end
    when the channel is live and with a start when it is not. *)
Fixpoint alternates (live : bool) (trace : list event) : Prop :=
  match trace with
  | [] => True
  | ev :: rest =>
      ev = (if live then EvEnd else EvStart) ∧ alternates (negb live) rest
  end.

(** Successive runs of the program for one channel: each run reads as [last]
    the dict that the run before it stored; the result lists the events of
    each run and the dict stored last. *)
Fixpoint runs (thresholds : list Z) (last : pydict)
    (observations : list pydict) : result (list (list event) * pydict) :=
  match observations with
  | [] => Ok ([], last)
  | current :: rest =>
      '(events, new_state) ← detect thresholds last current;
      '(later, final) ← runs thresholds (to_dict new_state) rest;
      Ok (events :: later, final)
  end.

(** A configured threshold that [int] accepts: not a NaN, not an
    infinity. *)
Definition finite_number (v : pyval) : bool :=
  match v with
  | PFloat FNaN | PFloat (FInf _) => false
  | _ => true
  end.

(** ** Concrete states and observations *)

(** A stored state that is not live, with the thresholds 100 and 300 passed
    in an earlier session. *)
Definition restart_last : pydict :=
  <["is_live" := PBool false]>
  (<["passed_thresholds" := PList [100; 300]]> ∅).

Definition restart_observation : pydict :=
  <["is_live" := PBool true]>
  (<["viewers" := PInt 150]>
  (<["title" := PStr "T"]>
  (<["category" := PStr "C"]> ∅))).

(** A live stored state and a live observation with 350 viewers. *)
Definition live_last : pydict :=
  <["is_live" := PBool true]>
  (<["title" := PStr "A"]>
  (<["category" := PStr "C"]>
  (<["viewers" := PInt 120]>
  (<["passed_thresholds" := PList [100]]> ∅)))).

Definition live_observation : pydict :=
  <["is_live" := PBool true]>
  (<["viewers" := PInt 350]>
  (<["title" := PStr "B"]>
  (<["category" := PStr "C"]> ∅))).

(** A stored state that is not live and still holds the viewers of the last
    fetch, and the observation that [fetch_live_info] returns when every
    attempt fails. *)
Definition offline_last : pydict :=
  to_dict {| is_live := PBool false; title := PStr "A"; category := PStr "C";
             viewers := PInt 10; passed_thresholds := PList [100] |}.

Definition offline_observation : pydict := <["is_live" := PBool false]> ∅.

(** A live observation whose title is the empty string. *)
Definition empty_title_observation : pydict :=
  <["is_live" := PBool true]> (<["title" := PStr ""]> ∅).

(** A live observation whose title is a number. *)
Definition number_title_observation : pydict :=
  <["is_live" := PBool true]> (<["title" := PInt 7]> ∅).

(** A live observation whose title is a float NaN (which [json.loads]
    accepts). *)
Definition nan_title_observation : pydict :=
  <["is_live" := PBool true]> (<["title" := PFloat FNaN]> ∅).

(** A live observation whose viewers are a text. *)
Definition text_viewers_observation : pydict :=
  <["is_live" := PBool true]> (<["viewers" := PStr "150"]> ∅).

(** A store with one channel, two configurations of its streamer, and a
    network on which every post fails. *)
Definition one_channel : store := <["a872c0594e60" := live_last]> ∅.

Definition streamer_with_webhook : streamer_config :=
  {| channel_id := Some "a872c0594e60";
     webhook_url := Some "https://discord.example/hook";
     name := PStr "Mbeung"; chzzk_url := PNone; discord_role_id := PNone |}.


Definition plain_format (ev : event) (streamer : streamer_config)
    (info last_state : pydict) : event := ev.

Definition failing_network (n : nat) (webhook : string) (msg : event)
    : post_outcome := PostRaised "timeout".

(** The observations of four runs: a start, a live run with more viewers,
    the same again, and the end. *)
Definition session_observations : list pydict :=
  [restart_observation; live_observation; live_observation;
   offline_observation].

(** A second channel and its streamer. *)
Definition other_streamer : streamer_config :=
  {| channel_id := Some "1755e5012c4d";
     webhook_url := Some "https://discord.example/other";
     name := PStr "Nari"; chzzk_url := PNone; discord_role_id := PNone |}.

(** A network that answers every post with 204. *)
Definition quiet_network (n : nat) (webhook : string) (msg : event)
    : post_outcome := Responded 204 "".

(** A stand-in for [str.upper] on texts that are in upper case already. *)
Definition upper_of_capitals (s : string) : string := s.

(** An environment with one webhook. *)
Definition one_variable : gmap (list N) (list N) :=
  <[text "WEBHOOK_MBEUNG" := text "https://discord.example/hook"]> ∅.

(** ** Helper lemmas *)

Lemma get_to_dict_is_live s : get (to_dict s) "is_live" = is_live s.
Proof. reflexivity. Qed.

Lemma get_to_dict_title s : get (to_dict s) "title" = title s.
Proof. reflexivity. Qed.

Lemma get_to_dict_category s : get (to_dict s) "category" = category s.
Proof. reflexivity. Qed.

Lemma get_or_to_dict_passed s d :
  get_or (to_dict s) "passed_thresholds" d = passed_thresholds s.
Proof. reflexivity. Qed.

Lemma sorted_Sorted l : Sorted Z.le (sorted l).
Proof. unfold sorted. apply (Sorted_merge_sort Z.le). Qed.

Lemma sorted_perm l : sorted l ≡ₚ l.
Proof. unfold sorted. apply (merge_sort_Permutation Z.le). Qed.

Lemma elem_of_sorted x l : x ∈ sorted l ↔ x ∈ l.
Proof. by rewrite sorted_perm. Qed.

Lemma collect_to_pass_ints v X thresholds acc :
  isinstance_int_float v = true →
  collect_to_pass v (SetInts X) thresholds acc
  = Ok (acc ++ List.filter
          (λ th, viewers_ge v th && negb (bool_decide (th ∈ X))) thresholds).
Proof.
  unfold isinstance_int_float, viewers_ge. intros Hnum.
  revert acc. induction thresholds as [|th rest IH]; intros acc; simpl.
  - by rewrite app_nil_r.
  - unfold py_ge. destruct (as_number v) as [n|]; [|done]. simpl.
    rewrite IH. destruct (number_ge n th && _); [|done].
    by rewrite <- app_assoc.
Qed.

Lemma set_passed_thresholds_same s v :
  passed_thresholds s = v → set_passed_thresholds v s = s.
Proof. destruct s; simpl; intros ->; reflexivity. Qed.

(** The threshold step on a state whose passed list is a list of integers. *)
Lemma viewer_thresholds_ints thresholds current s events l :
  is_live s = get_or current "is_live" (PBool false) →
  passed_thresholds s = PList l →
  viewer_thresholds thresholds current s events
  = Ok (events ++ (EvThresholdCross <$> sorted (crossed thresholds current l)),
        set_passed_thresholds
          (PList (next_passed l (crossed thresholds current l))) s).
Proof.
  intros Hlive Hl. unfold viewer_thresholds, crossed, now_live.
  rewrite Hlive.
  destruct (py_truthy (get_or current "is_live" (PBool false))); simpl;
    [|by rewrite app_nil_r, set_passed_thresholds_same].
  destruct (is_not_None _ && isinstance_int_float _) eqn:Hnum; simpl;
    [|by rewrite app_nil_r, set_passed_thresholds_same].
  apply andb_prop in Hnum as [_ Hnum].
  rewrite Hl; simpl. rewrite collect_to_pass_ints by done. simpl.
  destruct (List.filter _ thresholds) as [|th rest]; simpl;
    [by rewrite app_nil_r, set_passed_thresholds_same | done].
Qed.

(** [detect] in closed form, for a stored passed list of integers. *)
Lemma detect_closed_form thresholds last current l :
  stored_passed last l →
  detect thresholds last current
  = Ok (liveness_events last current ++ title_events last current
        ++ category_events last current
        ++ (EvThresholdCross <$>
              sorted (crossed thresholds current (passed_before last current l))),
        {| is_live := get_or current "is_live" (PBool false);
           title := py_or (get current "title") (get last "title");
           category := py_or (get current "category") (get last "category");
           viewers := get current "viewers";
           passed_thresholds :=
             PList (next_passed (passed_before last current l)
                      (crossed thresholds current (passed_before last current l)))
        |}).
Proof.
  unfold stored_passed. intros Hl.
  unfold detect, initial_state, start_end, title_category, fresh_start,
    liveness_events, title_events, category_events, passed_before,
    was_live, now_live.
  rewrite Hl. simpl.
  destruct (py_truthy (get last "is_live")) eqn:Hwas;
    destruct (py_truthy (get_or current "is_live" (PBool false))) eqn:Hnow;
    simpl.
  - unfold py_or.
    destruct (py_truthy (get current "title")) eqn:Ht;
      destruct (py_ne (get current "title") (get last "title"));
      destruct (py_truthy (get current "category")) eqn:Hc;
      destruct (py_ne (get current "category") (get last "category"));
      simpl;
      by erewrite viewer_thresholds_ints by (simpl; done).
  - by erewrite viewer_thresholds_ints by (simpl; done).
  - unfold py_or.
    destruct (py_truthy (get current "title")) eqn:Ht;
      destruct (py_truthy (get current "category")) eqn:Hc;
      simpl; rewrite ?Ht, ?Hc;
      by erewrite viewer_thresholds_ints by (simpl; done).
  - by erewrite viewer_thresholds_ints by (simpl; done).
Qed.

Lemma elem_of_crossed th thresholds current l :
  th ∈ crossed thresholds current l ↔
    th ∈ thresholds ∧ now_live current = true
    ∧ isinstance_int_float (get current "viewers") = true
    ∧ viewers_ge (get current "viewers") th = true ∧ th ∉ l.
Proof.
  unfold crossed.
  destruct (now_live current); simpl; [|rewrite elem_of_nil; naive_solver].
  destruct (is_not_None _ && isinstance_int_float _) eqn:Hnum.
  - apply andb_prop in Hnum as [_ Hnum].
    rewrite list_elem_of_In, filter_In, <- list_elem_of_In,
      andb_true_iff, negb_true_iff, bool_decide_eq_false,
      elem_of_list_to_set.
    naive_solver.
  - rewrite elem_of_nil. split; [done|]. intros (_ & _ & Hi & _).
    revert Hnum Hi. unfold isinstance_int_float, is_not_None.
    by destruct (get current "viewers").
Qed.

Lemma threshold_not_in_liveness th last current :
  EvThresholdCross th ∉ liveness_events last current.
Proof.
  unfold liveness_events.
  destruct (was_live last), (now_live current); set_solver.
Qed.

Lemma threshold_not_in_title th last current :
  EvThresholdCross th ∉ title_events last current.
Proof. unfold title_events. case_match; set_solver. Qed.

Lemma threshold_not_in_category th last current :
  EvThresholdCross th ∉ category_events last current.
Proof. unfold category_events. case_match; set_solver. Qed.

Lemma elem_of_threshold_events th last current xs :
  EvThresholdCross th
    ∈ liveness_events last current ++ title_events last current
      ++ category_events last current ++ (EvThresholdCross <$> xs)
  ↔ th ∈ xs.
Proof.
  rewrite !elem_of_app, list_elem_of_fmap.
  pose proof (threshold_not_in_liveness th last current).
  pose proof (threshold_not_in_title th last current).
  pose proof (threshold_not_in_category th last current).
  naive_solver.
Qed.

Lemma start_in_events last current xs :
  EvStart
    ∈ liveness_events last current ++ title_events last current
      ++ category_events last current ++ (EvThresholdCross <$> xs)
  ↔ was_live last = false ∧ now_live current = true.
Proof.
  rewrite !elem_of_app, list_elem_of_fmap.
  unfold liveness_events, title_events, category_events.
  destruct (was_live last), (now_live current); simpl;
    repeat case_match; set_solver.
Qed.

Lemma elem_of_next_passed th l to_pass :
  th ∈ next_passed l to_pass ↔ th ∈ l ∨ th ∈ to_pass.
Proof.
  unfold next_passed. destruct to_pass as [|x xs].
  - rewrite elem_of_nil. naive_solver.
  - rewrite elem_of_sorted, elem_of_elements, elem_of_union,
      !elem_of_list_to_set. done.
Qed.

(** Whatever could be crossed has been passed after one step. *)
Lemma crossed_again thresholds current l :
  crossed thresholds current
    (next_passed l (crossed thresholds current l)) = [].
Proof.
  destruct (crossed thresholds current
              (next_passed l (crossed thresholds current l)))
    as [|th rest] eqn:E; [done|].
  assert (Hin : th ∈ crossed thresholds current
                  (next_passed l (crossed thresholds current l)))
    by (rewrite E; left).
  apply elem_of_crossed in Hin as (Hths & Hlive & Hnum & Hge & Hnot).
  exfalso. apply Hnot. apply elem_of_next_passed.
  destruct (decide (th ∈ l)) as [|Hl]; [by left|right].
  apply elem_of_crossed. done.
Qed.

Lemma py_or_idemp a b : py_or a (py_or a b) = py_or a b.
Proof. unfold py_or. by destruct (py_truthy a) eqn:E; rewrite ?E. Qed.

Lemma py_ne_self v : is_nan v = false → py_ne v v = false.
Proof.
  unfold py_ne, py_eq.
  destruct v as [|b|z|[|sign|q]|t|l]; simpl; intros Hnan; try done.
  - by rewrite Z.eqb_refl.
  - by rewrite Z.eqb_refl.
  - by destruct sign.
  - by rewrite Qeq_bool_refl.
  - by rewrite bool_decide_eq_true_2.
  - by rewrite bool_decide_eq_true_2.
Qed.

(** A state that already agrees with the observation is a fixed point. *)
Lemma detect_settled thresholds current s l :
  is_live s = get_or current "is_live" (PBool false) →
  py_truthy (get current "title")
    && py_ne (get current "title") (title s) = false →
  py_truthy (get current "category")
    && py_ne (get current "category") (category s) = false →
  py_or (get current "title") (title s) = title s →
  py_or (get current "category") (category s) = category s →
  viewers s = get current "viewers" →
  passed_thresholds s = PList l →
  crossed thresholds current l = [] →
  detect thresholds (to_dict s) current = Ok ([], s).
Proof.
  intros Hlive Ht Hc Hto Hco Hv Hp Hcr.
  rewrite (detect_closed_form thresholds (to_dict s) current l)
    by (unfold stored_passed; by rewrite get_or_to_dict_passed).
  assert (Hwas : was_live (to_dict s) = now_live current).
  { unfold was_live, now_live. by rewrite get_to_dict_is_live, Hlive. }
  unfold liveness_events, title_events, category_events, passed_before.
  rewrite !get_to_dict_title, !get_to_dict_category, Hto, Hco.
  rewrite Hwas, Ht, Hc, !andb_false_r, andb_negb_l, Hcr. simpl.
  destruct s; simpl in *; subst. by destruct (now_live current).
Qed.

(** ** The detector on small inputs *)

(** An end event keeps title, category and the passed thresholds. *)
Example end_keeps_passed_thresholds :
  detect [100; 300; 500] live_last offline_observation
  = Ok ([EvEnd],
        {| is_live := PBool false; title := PStr "A"; category := PStr "C";
           viewers := PNone; passed_thresholds := PList [100] |}).
Proof. vm_compute. reflexivity. Qed.

(** Several thresholds crossed in one step come in ascending order, also
    from an unsorted list of thresholds. *)
Example three_thresholds_at_once :
  detect [500; 100; 300]
    (<["is_live" := PBool true]> ∅)
    (<["is_live" := PBool true]> (<["viewers" := PInt 600]> ∅))
  = Ok ([EvThresholdCross 100; EvThresholdCross 300; EvThresholdCross 500],
        {| is_live := PBool true; title := PNone; category := PNone;
           viewers := PInt 600; passed_thresholds := PList [100; 300; 500] |}).
Proof. vm_compute. reflexivity. Qed.

(** A float counts as viewers: 299.5 passes 100 and not 300. *)
Example float_viewers :
  detect [100; 300]
    (<["is_live" := PBool true]> ∅)
    (<["is_live" := PBool true]>
       (<["viewers" := PFloat (FFin (599 # 2))]> ∅))
  = Ok ([EvThresholdCross 100],
        {| is_live := PBool true; title := PNone; category := PNone;
           viewers := PFloat (FFin (599 # 2));
           passed_thresholds := PList [100] |}).
Proof. vm_compute. reflexivity. Qed.

(** Viewers that are a text are not counted. *)
Example text_viewers_not_counted :
  detect [100; 300; 500] live_last text_viewers_observation
  = Ok ([],
        {| is_live := PBool true; title := PStr "A"; category := PStr "C";
           viewers := PStr "150"; passed_thresholds := PList [100] |}).
Proof. vm_compute. reflexivity. Qed.

(** ** C1: a start resets the passed thresholds *)

(** C1. For the previous state [{is_live: false, passed_thresholds:
    [100, 300]}] (whatever its title, category and viewers) and the
    observation [{is_live: true, viewers: 150, title: "T", category: "C"}]
    with the thresholds [[100, 300, 500]], the detector emits exactly
    [[start, threshold_cross 100]] and the next state's passed thresholds
    are [[100]]: the list is emptied on the start before the thresholds are
    evaluated. *)
Theorem start_resets_thresholds (t c v : pyval) :
  detect [100; 300; 500]
    (to_dict {| is_live := PBool false; title := t; category := c;
                viewers := v; passed_thresholds := PList [100; 300] |})
    restart_observation
  = Ok ([EvStart; EvThresholdCross 100],
        {| is_live := PBool true; title := PStr "T"; category := PStr "C";
           viewers := PInt 150; passed_thresholds := PList [100] |}).
Proof. vm_compute. reflexivity. Qed.

(** ** C2: thresholds already passed *)

(** C2, as stated, fails: after a restart the threshold 100, which is in
    the previous state's passed thresholds, is crossed again. *)
Lemma recross_after_restart :
  ¬ (∀ thresholds last current l events s th,
       stored_passed last l →
       detect thresholds last current = Ok (events, s) →
       th ∈ l → EvThresholdCross th ∉ events).
Proof.
  intros claim.
  apply (claim [100; 300; 500] restart_last restart_observation
           [100; 300] [EvStart; EvThresholdCross 100]
           {| is_live := PBool true; title := PStr "T";
              category := PStr "C"; viewers := PInt 150;
              passed_thresholds := PList [100] |} 100).
  - reflexivity.
  - vm_compute. reflexivity.
  - left.
  - right. left.
Qed.

(** C2, amended. In every step that emits no start event, the detector
    returns and emits no threshold event for a threshold that is in the
    previous state's passed thresholds. *)
Theorem no_recross_without_start thresholds last current l :
  stored_passed last l →
  ∃ events s,
    detect thresholds last current = Ok (events, s)
    ∧ (EvStart ∉ events → ∀ th, th ∈ l → EvThresholdCross th ∉ events).
Proof.
  intros Hl. eexists _, _. split; [by apply detect_closed_form|].
  intros Hstart th Hth Hev.
  apply elem_of_threshold_events, elem_of_sorted, elem_of_crossed in Hev
    as (_ & Hnow & _ & _ & Hnot).
  apply Hnot. unfold passed_before.
  destruct (negb (was_live last) && now_live current) eqn:E; [|done].
  exfalso. apply Hstart, start_in_events.
  apply andb_prop in E as [E1 E2]. by apply negb_true_iff in E1.
Qed.

(** A live step with the threshold 100 already passed. *)
Lemma no_recross_without_start_witness :
  ∃ events s,
    detect [100; 300; 500] live_last live_observation = Ok (events, s)
    ∧ (EvStart ∉ events → ∀ th, th ∈ [100] → EvThresholdCross th ∉ events).
Proof.
  apply (no_recross_without_start [100; 300; 500] live_last live_observation
           [100]).
  reflexivity.
Defined.

(** ** C3: idempotence *)

(** C3, as stated, fails: a title that is a float NaN never equals itself,
    so the second run on the state of the first reports a title change
    again. *)
Lemma nan_title_renotified :
  ¬ (∀ thresholds last current l,
       stored_passed last l →
       ∃ events s,
         detect thresholds last current = Ok (events, s)
         ∧ ∃ s', detect thresholds (to_dict s) current = Ok ([], s')).
Proof.
  intros claim.
  destruct (claim [100; 300; 500] live_last nan_title_observation [100])
    as (events & s & Hfirst & s' & Hsecond); [reflexivity|].
  vm_compute in Hfirst. injection Hfirst as <- <-.
  vm_compute in Hsecond. discriminate Hsecond.
Qed.

(** C3, amended. When the observation's title and category are not a float
    NaN (in particular when they are null or a text), the detector returns,
    and running it again on the state it returned and the same observation
    emits no event (and returns the same state). *)
Theorem detect_idempotent thresholds last current l :
  stored_passed last l →
  is_nan (get current "title") = false →
  is_nan (get current "category") = false →
  ∃ events s,
    detect thresholds last current = Ok (events, s)
    ∧ detect thresholds (to_dict s) current = Ok ([], s).
Proof.
  intros Hl Ht Hc. eexists _, _. split; [by apply detect_closed_form|].
  apply detect_settled with
    (l := next_passed (passed_before last current l)
            (crossed thresholds current (passed_before last current l)));
    simpl; try done.
  - unfold py_or. destruct (py_truthy (get current "title")); [|done].
    simpl. by apply py_ne_self.
  - unfold py_or. destruct (py_truthy (get current "category")); [|done].
    simpl. by apply py_ne_self.
  - apply py_or_idemp.
  - apply py_or_idemp.
  - apply crossed_again.
Qed.

(** The restart of C1, run twice. *)
Lemma detect_idempotent_witness :
  ∃ events s,
    detect [100; 300; 500] restart_last restart_observation = Ok (events, s)
    ∧ detect [100; 300; 500] (to_dict s) restart_observation = Ok ([], s).
Proof.
  apply (detect_idempotent [100; 300; 500] restart_last restart_observation
           [100; 300]); reflexivity.
Defined.

(** ** C4: offline before, offline now *)

(** C4, as stated, fails: the stored viewers (10) are overwritten by the
    observation's (none), so the next state is not the previous one. *)
Lemma offline_viewers_replaced :
  ¬ (∀ thresholds last current events s,
       was_live last = false → now_live current = false →
       detect thresholds last current = Ok (events, s) →
       events = [] ∧ to_dict s = last).
Proof.
  intros claim.
  destruct (claim [100; 300; 500] offline_last offline_observation []
              {| is_live := PBool false; title := PStr "A";
                 category := PStr "C"; viewers := PNone;
                 passed_thresholds := PList [100] |})
    as [_ Hsame]; [reflexivity | reflexivity | vm_compute; reflexivity |].
  apply (f_equal (λ d : pydict, get d "viewers")) in Hsame.
  vm_compute in Hsame. discriminate Hsame.
Qed.

(** C4, amended. When the previous state is not live and the observation is
    not live, the detector emits no event; the next state has the
    observation's [is_live] (false) and the previous passed thresholds; its
    title and category are the observation's when it carries non-empty ones
    and the previous ones otherwise; its viewers are the observation's. *)
Theorem offline_step thresholds last current :
  was_live last = false → now_live current = false →
  detect thresholds last current
  = Ok ([], {| is_live := get_or current "is_live" (PBool false);
               title := py_or (get current "title") (get last "title");
               category :=
                 py_or (get current "category") (get last "category");
               viewers := get current "viewers";
               passed_thresholds :=
                 get_or last "passed_thresholds" (PList []) |}).
Proof.
  unfold was_live, now_live. intros Hwas Hnow.
  unfold detect, initial_state, start_end, title_category, fresh_start,
    viewer_thresholds. simpl.
  rewrite Hwas, Hnow. simpl. by rewrite Hnow.
Qed.

(** An offline step on a stored state that still holds viewers. *)
Lemma offline_step_witness :
  detect [100; 300; 500] offline_last offline_observation
  = Ok ([], {| is_live := PBool false; title := PStr "A";
               category := PStr "C"; viewers := PNone;
               passed_thresholds := PList [100] |}).
Proof.
  apply (offline_step [100; 300; 500] offline_last offline_observation);
    reflexivity.
Defined.

(** ** C5: the order of the events *)

(** C5. The detector returns, and its events are: at most one end or start
    event, then at most one title change, then at most one category change,
    then threshold events in ascending order of threshold. *)
Theorem events_in_fixed_order thresholds last current l :
  stored_passed last l →
  ∃ events s,
    detect thresholds last current = Ok (events, s)
    ∧ ∃ liveness title_change category_change crossings,
        events = liveness ++ title_change ++ category_change
                 ++ (EvThresholdCross <$> crossings)
        ∧ (liveness = [] ∨ liveness = [EvEnd] ∨ liveness = [EvStart])
        ∧ (title_change = [] ∨ title_change = [EvTitleChange])
        ∧ (category_change = [] ∨ category_change = [EvCategoryChange])
        ∧ Sorted Z.le crossings.
Proof.
  intros Hl. eexists _, _. split; [by apply detect_closed_form|].
  eexists _, _, _, _. split; [reflexivity|].
  split; [|split; [|split]].
  - unfold liveness_events.
    destruct (was_live last), (now_live current); auto.
  - unfold title_events. case_match; auto.
  - unfold category_events. case_match; auto.
  - apply sorted_Sorted.
Qed.

(** A live step with unsorted thresholds. *)
Lemma events_in_fixed_order_witness :
  ∃ events s,
    detect [500; 100; 300] live_last live_observation = Ok (events, s)
    ∧ ∃ liveness title_change category_change crossings,
        events = liveness ++ title_change ++ category_change
                 ++ (EvThresholdCross <$> crossings)
        ∧ (liveness = [] ∨ liveness = [EvEnd] ∨ liveness = [EvStart])
        ∧ (title_change = [] ∨ title_change = [EvTitleChange])
        ∧ (category_change = [] ∨ category_change = [EvCategoryChange])
        ∧ Sorted Z.le crossings.
Proof.
  apply (events_in_fixed_order [500; 100; 300] live_last live_observation
           [100]).
  reflexivity.
Defined.

(** ** C6: title and category changes while live *)

(** C6, as stated, fails: an observation whose title is the empty string
    carries a title that differs from the previous one, and no title change
    is emitted. *)
Lemma empty_title_is_no_change :
  ¬ (∀ thresholds last current events s,
       was_live last = true → now_live current = true →
       detect thresholds last current = Ok (events, s) →
       (EvTitleChange ∈ events ↔
          is_not_None (get current "title") = true
          ∧ py_ne (get current "title") (get last "title") = true)).
Proof.
  intros claim.
  destruct (claim [100; 300; 500] live_last empty_title_observation []
              {| is_live := PBool true; title := PStr "A";
                 category := PStr "C"; viewers := PNone;
                 passed_thresholds := PList [100] |})
    as [_ Hemit]; [reflexivity | reflexivity | vm_compute; reflexivity |].
  assert (Hin : EvTitleChange ∈ @nil event) by (apply Hemit; by split).
  by apply elem_of_nil in Hin.
Qed.

(** C6, amended. While live before and now, a title change is emitted if and
    only if the observation's title is truthy (present, not null and not
    empty) and differs from the previous title; a truthy title becomes the
    next state's title, and otherwise the previous title is kept.  The same
    holds for the category. *)
Theorem content_change_while_live thresholds last current l :
  stored_passed last l →
  was_live last = true → now_live current = true →
  ∃ events s,
    detect thresholds last current = Ok (events, s)
    ∧ (EvTitleChange ∈ events ↔
         py_truthy (get current "title") = true
         ∧ py_ne (get current "title") (get last "title") = true)
    ∧ (py_truthy (get current "title") = true →
       title s = get current "title")
    ∧ (py_truthy (get current "title") = false →
       title s = get last "title")
    ∧ (EvCategoryChange ∈ events ↔
         py_truthy (get current "category") = true
         ∧ py_ne (get current "category") (get last "category") = true)
    ∧ (py_truthy (get current "category") = true →
       category s = get current "category")
    ∧ (py_truthy (get current "category") = false →
       category s = get last "category").
Proof.
  intros Hl Hwas Hnow. eexists _, _.
  split; [by apply detect_closed_form|]. simpl.
  rewrite !elem_of_app, !list_elem_of_fmap.
  unfold liveness_events, title_events, category_events, py_or.
  rewrite Hwas, Hnow. simpl.
  destruct (py_truthy (get current "title"));
    destruct (py_ne (get current "title") (get last "title"));
    destruct (py_truthy (get current "category"));
    destruct (py_ne (get current "category") (get last "category"));
    simpl; repeat split; try done; set_solver.
Qed.

(** A live step whose title changes from A to B. *)
Lemma content_change_while_live_witness :
  ∃ events s,
    detect [100; 300; 500] live_last live_observation = Ok (events, s)
    ∧ (EvTitleChange ∈ events ↔
         py_truthy (get live_observation "title") = true
         ∧ py_ne (get live_observation "title") (get live_last "title") = true)
    ∧ (py_truthy (get live_observation "title") = true →
       title s = get live_observation "title")
    ∧ (py_truthy (get live_observation "title") = false →
       title s = get live_last "title")
    ∧ (EvCategoryChange ∈ events ↔
         py_truthy (get live_observation "category") = true
         ∧ py_ne (get live_observation "category")
             (get live_last "category") = true)
    ∧ (py_truthy (get live_observation "category") = true →
       category s = get live_observation "category")
    ∧ (py_truthy (get live_observation "category") = false →
       category s = get live_last "category").
Proof.
  apply (content_change_while_live [100; 300; 500] live_last
           live_observation [100]); reflexivity.
Defined.

(** ** C7: the detector never raises *)

(** C7, as stated, fails: a title of an unexpected type (the number 7) is
    not treated as no change; a title change is emitted and the number is
    stored as the title. *)
Lemma number_title_is_a_change :
  ¬ (∀ thresholds last current l,
       stored_passed last l →
       ∃ events s,
         detect thresholds last current = Ok (events, s)
         ∧ (is_string (get current "title") = false →
            (EvTitleChange ∉ events) ∧ title s = get last "title")
         ∧ (is_string (get current "category") = false →
            (EvCategoryChange ∉ events) ∧ category s = get last "category")
         ∧ (isinstance_int_float (get current "viewers") = false →
            ∀ th, EvThresholdCross th ∉ events)).
Proof.
  intros claim.
  destruct (claim [100; 300; 500] live_last number_title_observation [100])
    as (events & s & Hrun & Htitle & _); [reflexivity|].
  vm_compute in Hrun. injection Hrun as <- <-.
  destruct Htitle as [Hnone _]; [reflexivity|].
  apply Hnone. left.
Qed.

(** C7, amended. For every stored state whose passed thresholds are a list
    of integers (or absent), every observation and every list of integer
    thresholds, the detector returns events and a state and does not raise.
    A title or category that is missing, null or otherwise falsy is treated
    as no change (no event, the previous value kept), and viewers that are
    missing, null or not an int or a float are treated as not crossed (no
    threshold event, the passed list untouched).  A truthy title or
    category, of whatever type, is stored as the next title or category and
    is reported as a change exactly when the channel was live, is live and
    the value differs from the previous one. *)
Theorem detect_total thresholds last current l :
  stored_passed last l →
  ∃ events s,
    detect thresholds last current = Ok (events, s)
    ∧ (py_truthy (get current "title") = false →
       (EvTitleChange ∉ events) ∧ title s = get last "title")
    ∧ (py_truthy (get current "category") = false →
       (EvCategoryChange ∉ events) ∧ category s = get last "category")
    ∧ (isinstance_int_float (get current "viewers") = false →
       (∀ th, EvThresholdCross th ∉ events)
       ∧ passed_thresholds s = PList (passed_before last current l))
    ∧ (py_truthy (get current "title") = true →
       title s = get current "title"
       ∧ (EvTitleChange ∈ events ↔
            was_live last = true ∧ now_live current = true
            ∧ py_ne (get current "title") (get last "title") = true))
    ∧ (py_truthy (get current "category") = true →
       category s = get current "category"
       ∧ (EvCategoryChange ∈ events ↔
            was_live last = true ∧ now_live current = true
            ∧ py_ne (get current "category") (get last "category") = true)).
Proof.
  intros Hl. eexists _, _. split; [by apply detect_closed_form|]. simpl.
  split; [|split; [|split; [|split]]].
  - intros Ht. unfold py_or. rewrite Ht. split; [|done].
    rewrite !elem_of_app, list_elem_of_fmap.
    unfold liveness_events, title_events, category_events. rewrite Ht.
    rewrite andb_false_r. repeat case_match; set_solver.
  - intros Hc. unfold py_or. rewrite Hc. split; [|done].
    rewrite !elem_of_app, list_elem_of_fmap.
    unfold liveness_events, title_events, category_events. rewrite Hc.
    rewrite !andb_false_r. repeat case_match; set_solver.
  - intros Hv.
    assert (Hcr : crossed thresholds current (passed_before last current l)
                  = []).
    { unfold crossed. by rewrite Hv, !andb_false_r. }
    rewrite Hcr. split; [|done].
    intros th Hin. apply elem_of_threshold_events in Hin.
    by apply elem_of_nil in Hin.
  - intros Ht. unfold py_or. rewrite Ht. split; [done|].
    rewrite !elem_of_app, list_elem_of_fmap.
    unfold liveness_events, title_events, category_events. rewrite Ht.
    destruct (was_live last), (now_live current),
      (py_ne (get current "title") (get last "title")); simpl;
      repeat case_match; set_solver.
  - intros Hc. unfold py_or. rewrite Hc. split; [done|].
    rewrite !elem_of_app, list_elem_of_fmap.
    unfold liveness_events, title_events, category_events. rewrite Hc.
    destruct (was_live last), (now_live current),
      (py_ne (get current "category") (get last "category")); simpl;
      repeat case_match; set_solver.
Qed.

(** A live observation whose title is a number and which has no viewers. *)
Lemma detect_total_witness :
  ∃ events s,
    detect [100; 300; 500] live_last number_title_observation
    = Ok (events, s)
    ∧ (py_truthy (get number_title_observation "title") = false →
       (EvTitleChange ∉ events) ∧ title s = get live_last "title")
    ∧ (py_truthy (get number_title_observation "category") = false →
       (EvCategoryChange ∉ events) ∧ category s = get live_last "category")
    ∧ (isinstance_int_float (get number_title_observation "viewers") = false →
       (∀ th, EvThresholdCross th ∉ events)
       ∧ passed_thresholds s
         = PList (passed_before live_last number_title_observation [100]))
    ∧ (py_truthy (get number_title_observation "title") = true →
       title s = get number_title_observation "title"
       ∧ (EvTitleChange ∈ events ↔
            was_live live_last = true
            ∧ now_live number_title_observation = true
            ∧ py_ne (get number_title_observation "title")
                (get live_last "title") = true))
    ∧ (py_truthy (get number_title_observation "category") = true →
       category s = get number_title_observation "category"
       ∧ (EvCategoryChange ∈ events ↔
            was_live live_last = true
            ∧ now_live number_title_observation = true
            ∧ py_ne (get number_title_observation "category")
                (get live_last "category") = true)).
Proof.
  apply (detect_total [100; 300; 500] live_last number_title_observation
           [100]).
  reflexivity.
Defined.

(** ** C8: viewers are never carried forward *)

(** C8. The detector returns, and the next state's viewers are the
    observation's: [current.get("viewers")], which is null when the
    observation has no viewers. *)
Theorem viewers_overwritten thresholds last current l :
  stored_passed last l →
  ∃ events s,
    detect thresholds last current = Ok (events, s)
    ∧ viewers s = get current "viewers"
    ∧ (current !! "viewers" = None → viewers s = PNone).
Proof.
  intros Hl. eexists _, _. split; [by apply detect_closed_form|]. simpl.
  split; [done|]. unfold get. by intros ->.
Qed.

(** A live observation without viewers. *)
Lemma viewers_overwritten_witness :
  ∃ events s,
    detect [100; 300; 500] live_last empty_title_observation = Ok (events, s)
    ∧ viewers s = get empty_title_observation "viewers"
    ∧ (empty_title_observation !! "viewers" = None → viewers s = PNone).
Proof.
  apply (viewers_overwritten [100; 300; 500] live_last
           empty_title_observation [100]).
  reflexivity.
Defined.

(** ** C9: passed thresholds only grow within a session *)

(** C9. The detector returns a state whose passed thresholds are a list of
    integers; in a step that emits no start event (an end event included),
    this list holds exactly the previous passed thresholds and the
    thresholds of the threshold events of the step. *)
Theorem passed_thresholds_grow thresholds last current l :
  stored_passed last l →
  ∃ events s l',
    detect thresholds last current = Ok (events, s)
    ∧ passed_thresholds s = PList l'
    ∧ (EvStart ∉ events →
       (∀ th, th ∈ l → th ∈ l')
       ∧ (∀ th, th ∈ l' ↔ th ∈ l ∨ EvThresholdCross th ∈ events)).
Proof.
  intros Hl. eexists _, _, _. split; [by apply detect_closed_form|]. simpl.
  split; [reflexivity|]. intros Hstart.
  assert (Hbefore : passed_before last current l = l).
  { unfold passed_before.
    destruct (negb (was_live last) && now_live current) eqn:E; [|done].
    exfalso. apply Hstart, start_in_events.
    apply andb_prop in E as [E1 E2]. by apply negb_true_iff in E1. }
  rewrite Hbefore.
  assert (Hiff : ∀ th,
    th ∈ next_passed l (crossed thresholds current l) ↔
    th ∈ l ∨ EvThresholdCross th
               ∈ liveness_events last current ++ title_events last current
                 ++ category_events last current
                 ++ (EvThresholdCross <$> sorted (crossed thresholds current l))).
  { intros th.
    by rewrite elem_of_next_passed, elem_of_threshold_events, elem_of_sorted. }
  split; [|done]. intros th Hth. apply Hiff. by left.
Qed.

(** A live step that crosses the threshold 300. *)
Lemma passed_thresholds_grow_witness :
  ∃ events s l',
    detect [100; 300; 500] live_last live_observation = Ok (events, s)
    ∧ passed_thresholds s = PList l'
    ∧ (EvStart ∉ events →
       (∀ th, th ∈ [100] → th ∈ l')
       ∧ (∀ th, th ∈ l' ↔ th ∈ [100] ∨ EvThresholdCross th ∈ events)).
Proof.
  apply (passed_thresholds_grow [100; 300; 500] live_last live_observation
           [100]).
  reflexivity.
Defined.

(** ** C10: the stored state does not depend on the notifications *)



(** ** The stored passed list must be a list *)

(** A stored state whose ["passed_thresholds"] is null (one that the program
    never writes) makes [set(...)] raise as soon as viewers are counted. *)
Example null_passed_thresholds_raises :
  detect [100; 300; 500]
    (<["is_live" := PBool true]> (<["passed_thresholds" := PNone]> ∅))
    live_observation
  = Raise TypeError.
Proof. vm_compute. reflexivity. Qed.

(** * Further properties of the code *)

(** ** Helper lemmas *)

Lemma strictly_sorted_of_NoDup (l : list Z) :
  Sorted Z.le l → NoDup l → StronglySorted Z.lt l.
Proof.
  intros Hs Hn. apply (Sorted_StronglySorted Z.le) in Hs.
  induction l as [|x l IH]; [constructor|].
  apply StronglySorted_cons in Hs as [Hall Hs].
  apply NoDup_cons in Hn as [Hx Hn].
  apply StronglySorted_cons. split; [|by apply IH].
  apply Forall_forall. intros y Hy.
  pose proof (proj1 (Forall_forall _ _) Hall y Hy) as Hle.
  assert (x ≠ y) by (intros ->; done). lia.
Qed.

Lemma sorted_NoDup (l : list Z) : NoDup l → NoDup (sorted l).
Proof. intros H. by rewrite sorted_perm. Qed.

Lemma sorted_elements_strict (X : gset Z) :
  StronglySorted Z.lt (sorted (elements X)).
Proof.
  apply strictly_sorted_of_NoDup; [apply sorted_Sorted|].
  apply sorted_NoDup, NoDup_elements.
Qed.

Lemma crossed_NoDup thresholds current l :
  NoDup thresholds → NoDup (crossed thresholds current l).
Proof.
  intros H. unfold crossed. case_match; [|constructor].
  apply NoDup_ListNoDup, List.NoDup_filter. by apply NoDup_ListNoDup.
Qed.

Lemma crossings_of_thresholds xs : crossings_of (EvThresholdCross <$> xs) = xs.
Proof. induction xs as [|x xs IH]; simpl; [done|]. by f_equal. Qed.

Lemma crossings_of_closed last current xs :
  crossings_of
    (liveness_events last current ++ title_events last current
     ++ category_events last current ++ (EvThresholdCross <$> xs)) = xs.
Proof.
  unfold crossings_of. rewrite !omap_app.
  fold (crossings_of (EvThresholdCross <$> xs)).
  rewrite crossings_of_thresholds.
  unfold liveness_events, title_events, category_events.
  by repeat case_match.
Qed.

Lemma elem_of_crossings_of th events :
  th ∈ crossings_of events ↔ EvThresholdCross th ∈ events.
Proof.
  unfold crossings_of. rewrite list_elem_of_omap. split.
  - intros (ev & Hin & Hev). destruct ev; simplify_eq. done.
  - intros Hin. by exists (EvThresholdCross th).
Qed.

Lemma liveness_trace_closed last current xs :
  liveness_trace
    (liveness_events last current ++ title_events last current
     ++ category_events last current ++ (EvThresholdCross <$> xs))
  = liveness_events last current.
Proof.
  unfold liveness_trace. rewrite !List.filter_app.
  assert (List.filter
            (λ ev, match ev with EvStart | EvEnd => true | _ => false end)
            (EvThresholdCross <$> xs) = []) as ->.
  { induction xs as [|x xs IH]; [done|]. simpl. exact IH. }
  unfold liveness_events, title_events, category_events.
  by repeat case_match.
Qed.

Lemma next_state_stored thresholds last current l :
  stored_passed
    (to_dict
       {| is_live := get_or current "is_live" (PBool false);
          title := py_or (get current "title") (get last "title");
          category := py_or (get current "category") (get last "category");
          viewers := get current "viewers";
          passed_thresholds :=
            PList (next_passed (passed_before last current l)
                     (crossed thresholds current (passed_before last current l)))
       |})
    (next_passed (passed_before last current l)
       (crossed thresholds current (passed_before last current l))).
Proof. reflexivity. Qed.

Lemma no_start_passed_before last current l xs :
  EvStart
    ∉ liveness_events last current ++ title_events last current
      ++ category_events last current ++ (EvThresholdCross <$> xs) →
  passed_before last current l = l.
Proof.
  intros Hstart. unfold passed_before.
  destruct (negb (was_live last) && now_live current) eqn:E; [|done].
  exfalso. apply Hstart, start_in_events.
  apply andb_prop in E as [E1 E2]. by apply negb_true_iff in E1.
Qed.

(** [runs] unfolded by one run, for a stored passed list of integers. *)
Lemma runs_cons thresholds last current rest l :
  stored_passed last l →
  runs thresholds last (current :: rest)
  = '(later, final) ←
      runs thresholds
        (to_dict
           {| is_live := get_or current "is_live" (PBool false);
              title := py_or (get current "title") (get last "title");
              category :=
                py_or (get current "category") (get last "category");
              viewers := get current "viewers";
              passed_thresholds :=
                PList (next_passed (passed_before last current l)
                         (crossed thresholds current
                            (passed_before last current l))) |}) rest;
    Ok ((liveness_events last current ++ title_events last current
         ++ category_events last current
         ++ (EvThresholdCross <$>
               sorted (crossed thresholds current
                         (passed_before last current l)))) :: later, final).
Proof.
  intros Hl. simpl. by rewrite (detect_closed_form thresholds last current l).
Qed.

(** ** The events of one step *)

(** X1. The detector emits a threshold event for exactly the configured
    thresholds that the viewers of a live observation reach and that are not
    in the passed list the step starts from (the stored list, or the empty
    list on a start): none is missed and none is invented. *)
Theorem threshold_events_exact thresholds last current l :
  stored_passed last l →
  ∃ events s,
    detect thresholds last current = Ok (events, s)
    ∧ ∀ th,
        EvThresholdCross th ∈ events ↔
          th ∈ thresholds ∧ now_live current = true
          ∧ isinstance_int_float (get current "viewers") = true
          ∧ viewers_ge (get current "viewers") th = true
          ∧ th ∉ passed_before last current l.
Proof.
  intros Hl. eexists _, _. split; [by apply detect_closed_form|].
  intros th. by rewrite elem_of_threshold_events, elem_of_sorted,
    elem_of_crossed.
Qed.

(** A live step with 350 viewers and the threshold 100 already passed. *)
Lemma threshold_events_exact_witness :
  ∃ events s,
    detect [100; 300; 500] live_last live_observation = Ok (events, s)
    ∧ ∀ th,
        EvThresholdCross th ∈ events ↔
          th ∈ [100; 300; 500] ∧ now_live live_observation = true
          ∧ isinstance_int_float (get live_observation "viewers") = true
          ∧ viewers_ge (get live_observation "viewers") th = true
          ∧ th ∉ passed_before live_last live_observation [100].
Proof.
  apply (threshold_events_exact [100; 300; 500] live_last live_observation
           [100]).
  reflexivity.
Defined.

(** X2. A start is emitted exactly when the stored state is not live and the
    observation is, an end exactly when the stored state is live and the
    observation is not; a step never emits both, and a step that emits one
    of them emits no title or category change. *)
Theorem liveness_events_exact thresholds last current l :
  stored_passed last l →
  ∃ events s,
    detect thresholds last current = Ok (events, s)
    ∧ (EvStart ∈ events ↔ was_live last = false ∧ now_live current = true)
    ∧ (EvEnd ∈ events ↔ was_live last = true ∧ now_live current = false)
    ∧ ¬ (EvStart ∈ events ∧ EvEnd ∈ events)
    ∧ (EvStart ∈ events ∨ EvEnd ∈ events →
       (EvTitleChange ∉ events) ∧ (EvCategoryChange ∉ events)).
Proof.
  intros Hl. eexists _, _. split; [by apply detect_closed_form|].
  rewrite !elem_of_app, !list_elem_of_fmap.
  unfold liveness_events, title_events, category_events.
  destruct (was_live last), (now_live current); simpl;
    repeat case_match; set_solver.
Qed.

(** The restart of a channel. *)
Lemma liveness_events_exact_witness :
  ∃ events s,
    detect [100; 300; 500] restart_last restart_observation = Ok (events, s)
    ∧ (EvStart ∈ events ↔
         was_live restart_last = false ∧ now_live restart_observation = true)
    ∧ (EvEnd ∈ events ↔
         was_live restart_last = true ∧ now_live restart_observation = false)
    ∧ ¬ (EvStart ∈ events ∧ EvEnd ∈ events)
    ∧ (EvStart ∈ events ∨ EvEnd ∈ events →
       (EvTitleChange ∉ events) ∧ (EvCategoryChange ∉ events)).
Proof.
  apply (liveness_events_exact [100; 300; 500] restart_last
           restart_observation [100; 300]).
  reflexivity.
Defined.

(** X3. When a step emits a threshold event, the passed list it stores is
    strictly ascending (sorted, without duplicates), whatever the order of
    the stored list and of the thresholds; when it emits none, the list is
    the one the step started from, as it was. *)
Theorem stored_passed_list_sorted thresholds last current l :
  stored_passed last l →
  ∃ events s l',
    detect thresholds last current = Ok (events, s)
    ∧ passed_thresholds s = PList l'
    ∧ ((∃ th, EvThresholdCross th ∈ events) → StronglySorted Z.lt l')
    ∧ ((∀ th, EvThresholdCross th ∉ events) →
       l' = passed_before last current l).
Proof.
  intros Hl. eexists _, _, _. split; [by apply detect_closed_form|]. simpl.
  split; [reflexivity|]. split.
  - intros [th Hth].
    rewrite elem_of_threshold_events, elem_of_sorted in Hth.
    destruct (crossed thresholds current (passed_before last current l));
      [by apply elem_of_nil in Hth|].
    apply sorted_elements_strict.
  - intros Hnone.
    destruct (crossed thresholds current (passed_before last current l))
      as [|th rest] eqn:E; [done|].
    exfalso. apply (Hnone th).
    rewrite elem_of_threshold_events, elem_of_sorted. left.
Qed.

(** A stored list out of order, and thresholds out of order. *)
Lemma stored_passed_list_sorted_witness :
  ∃ events s l',
    detect [500; 100; 300]
      (<["is_live" := PBool true]>
         (<["passed_thresholds" := PList [300; 100; 100]]> ∅))
      (<["is_live" := PBool true]> (<["viewers" := PInt 600]> ∅))
    = Ok (events, s)
    ∧ passed_thresholds s = PList l'
    ∧ ((∃ th, EvThresholdCross th ∈ events) → StronglySorted Z.lt l')
    ∧ ((∀ th, EvThresholdCross th ∉ events) →
       l' = passed_before
              (<["is_live" := PBool true]>
                 (<["passed_thresholds" := PList [300; 100; 100]]> ∅))
              (<["is_live" := PBool true]> (<["viewers" := PInt 600]> ∅))
              [300; 100; 100]).
Proof.
  apply (stored_passed_list_sorted [500; 100; 300]
           (<["is_live" := PBool true]>
              (<["passed_thresholds" := PList [300; 100; 100]]> ∅))
           (<["is_live" := PBool true]> (<["viewers" := PInt 600]> ∅))
           [300; 100; 100]).
  reflexivity.
Defined.

(** ** Successive runs *)

(** X4. Starting from a stored state whose passed list is a list of integers
    (or from no stored state), any sequence of observations is processed
    without an exception, one list of events per run, and the state stored
    last is again of that form: the detector never stores a state that makes
    a later run raise. *)
Theorem runs_never_raise thresholds observations : ∀ last l,
  stored_passed last l →
  ∃ eventss final l',
    runs thresholds last observations = Ok (eventss, final)
    ∧ length eventss = length observations
    ∧ stored_passed final l'.
Proof.
  induction observations as [|current rest IH]; intros last l Hl.
  - by exists [], last, l.
  - rewrite (runs_cons thresholds last current rest l Hl).
    destruct (IH _ _ (next_state_stored thresholds last current l))
      as (later & final & l' & -> & Hlen & Hfinal).
    simpl. eexists _, final, l'. split; [reflexivity|].
    split; [simpl; by f_equal | done].
Qed.

(** A session from no stored state. *)
Lemma runs_never_raise_witness :
  ∃ eventss final l',
    runs [100; 300; 500] ∅ session_observations = Ok (eventss, final)
    ∧ length eventss = length session_observations
    ∧ stored_passed final l'.
Proof.
  apply (runs_never_raise [100; 300; 500] session_observations ∅ []).
  reflexivity.
Defined.

(** X5. Over successive runs that emit no start event (one live session,
    its end included) and with thresholds that are distinct, every threshold
    is notified at most once in total, and a threshold in the stored passed
    list is not notified at all. *)
Theorem session_crosses_once thresholds observations : ∀ last l,
  stored_passed last l →
  NoDup thresholds →
  ∃ eventss final,
    runs thresholds last observations = Ok (eventss, final)
    ∧ (EvStart ∉ concat eventss →
       NoDup (crossings_of (concat eventss))
       ∧ ∀ th, th ∈ l → EvThresholdCross th ∉ concat eventss).
Proof.
  induction observations as [|current rest IH]; intros last l Hl Hths.
  - exists [], last. split; [done|]. intros _. simpl.
    split; [constructor|]. intros th _. apply not_elem_of_nil.
  - rewrite (runs_cons thresholds last current rest l Hl).
    destruct (IH _ _ (next_state_stored thresholds last current l) Hths)
      as (later & final & -> & Hlater).
    simpl. eexists _, final. split; [reflexivity|].
    simpl. intros Hstart.
    apply not_elem_of_app in Hstart as [Hstart Hstart'].
    rewrite (no_start_passed_before last current l _ Hstart) in *.
    destruct (Hlater Hstart') as [Hnodup Hnot].
    unfold crossings_of. rewrite omap_app.
    fold (crossings_of (concat later)).
    fold (crossings_of
            (liveness_events last current ++ title_events last current
             ++ category_events last current
             ++ (EvThresholdCross <$> sorted (crossed thresholds current l)))).
    rewrite crossings_of_closed. split.
    + apply NoDup_app. split; [|split; [|done]].
      * by apply sorted_NoDup, crossed_NoDup.
      * intros th Hth Hth'. apply elem_of_crossings_of in Hth'.
        apply (Hnot th); [|done].
        apply elem_of_next_passed. right. by apply elem_of_sorted.
    + intros th Hth. apply not_elem_of_app. split.
      * rewrite elem_of_threshold_events, elem_of_sorted, elem_of_crossed.
        naive_solver.
      * apply Hnot, elem_of_next_passed. by left.
Qed.

(** A live session that crosses 300 once in three runs. *)
Lemma session_crosses_once_witness :
  ∃ eventss final,
    runs [100; 300; 500] live_last
      [live_observation; live_observation; offline_observation]
    = Ok (eventss, final)
    ∧ (EvStart ∉ concat eventss →
       NoDup (crossings_of (concat eventss))
       ∧ ∀ th, th ∈ [100] → EvThresholdCross th ∉ concat eventss).
Proof.
  apply (session_crosses_once [100; 300; 500]
           [live_observation; live_observation; offline_observation]
           live_last [100]).
  - reflexivity.
  - apply NoDup_ListNoDup. repeat constructor; simpl; intuition lia.
Defined.

(** X6. Over successive runs the start and end events alternate: after a
    start the next of the two is an end and after an end it is a start, the
    first one being an end when the stored state is live and a start when it
    is not. *)
Theorem starts_and_ends_alternate thresholds observations : ∀ last l,
  stored_passed last l →
  ∃ eventss final,
    runs thresholds last observations = Ok (eventss, final)
    ∧ alternates (was_live last) (liveness_trace (concat eventss)).
Proof.
  induction observations as [|current rest IH]; intros last l Hl.
  - by exists [], last.
  - rewrite (runs_cons thresholds last current rest l Hl).
    destruct (IH _ _ (next_state_stored thresholds last current l))
      as (later & final & -> & Halt).
    simpl. eexists _, final. split; [reflexivity|].
    simpl. unfold liveness_trace in *. rewrite List.filter_app.
    fold (liveness_trace
            (liveness_events last current ++ title_events last current
             ++ category_events last current
             ++ (EvThresholdCross <$>
                   sorted (crossed thresholds current
                             (passed_before last current l))))).
    rewrite liveness_trace_closed.
    change (was_live (to_dict _)) with (now_live current) in Halt.
    unfold liveness_events.
    destruct (was_live last), (now_live current); simpl; auto.
Qed.

(** A session from no stored state: a start, then an end. *)
Lemma starts_and_ends_alternate_witness :
  ∃ eventss final,
    runs [100; 300; 500] ∅ session_observations = Ok (eventss, final)
    ∧ alternates (was_live ∅) (liveness_trace (concat eventss)).
Proof.
  apply (starts_and_ends_alternate [100; 300; 500] session_observations ∅ []).
  reflexivity.
Defined.

(** ** [process_streamer]: the store and the notifications *)

Lemma send_all_posted {message : Type}
    (format : event → streamer_config → pydict → pydict → message)
    (network : nat → string → message → post_outcome)
    streamer webhook current last events : ∀ fx,
  posted (send_all format network streamer webhook current last events fx)
  = posted fx
    ++ ((λ ev, (webhook, format ev streamer current last)) <$> events).
Proof.
  induction events as [|ev rest IH]; intros fx; simpl.
  - by rewrite app_nil_r.
  - rewrite IH. simpl. by rewrite <- app_assoc.
Qed.

Lemma send_discord_message_lines reply :
  (length (send_discord_message reply) ≤ 1)%nat.
Proof.
  destruct reply as [status text|e]; simpl; [|lia]. case_match; simpl; lia.
Qed.

Lemma send_all_output_length {message : Type}
    (format : event → streamer_config → pydict → pydict → message)
    (network : nat → string → message → post_outcome)
    streamer webhook current last events : ∀ fx,
  (length (output
             (send_all format network streamer webhook current last events fx))
   ≤ length (output fx) + length events)%nat.
Proof.
  induction events as [|ev rest IH]; intros fx; simpl; [lia|].
  etrans; [apply IH|]. simpl. rewrite length_app.
  pose proof (send_discord_message_lines
    (network (length (posted fx)) webhook
       (format ev streamer current last))).
  lia.
Qed.

Lemma send_all_output_quiet {message : Type}
    (format : event → streamer_config → pydict → pydict → message)
    (network : nat → string → message → post_outcome)
    streamer webhook current last events :
  (∀ n url msg, ∃ status text,
      network n url msg = Responded status text ∧ status < 400) →
  ∀ fx,
    output (send_all format network streamer webhook current last events fx)
    = output fx.
Proof.
  intros Hquiet. induction events as [|ev rest IH]; intros fx; simpl; [done|].
  rewrite IH. simpl.
  destruct (Hquiet (length (posted fx)) webhook
              (format ev streamer current last))
    as (status & text & -> & Hlt).
  simpl. rewrite (proj2 (Z.leb_gt 400 status)) by done.
  by rewrite app_nil_r.
Qed.

(** [process_streamer] once the detector has returned. *)
Lemma process_streamer_run {message : Type}
    (format : event → streamer_config → pydict → pydict → message)
    (network : nat → string → message → post_outcome)
    streamer thresholds current (state : store) key events s :
  channel_id streamer = Some key → key ≠ "" →
  detect thresholds (default ∅ (state !! key)) current = Ok (events, s) →
  process_streamer format network streamer thresholds current state
  = Ok (<[key := to_dict s]> state,
        match webhook_url streamer, events with
        | Some webhook, _ :: _ =>
            if bool_decide (webhook = "")
            then {| posted := []; output := [] |}
            else send_all format network streamer webhook current
                   (default ∅ (state !! key)) events
                   {| posted := []; output := [] |}
        | _, _ => {| posted := []; output := [] |}
        end).
Proof.
  intros Hid Hkey Hrun. unfold process_streamer.
  rewrite Hid, bool_decide_eq_false_2 by done. by rewrite Hrun.
Qed.

(** X7. A run of [process_streamer] that returns leaves the stored state of
    every other channel as it was; for a streamer without a channel
    identifier (missing, null or empty) it leaves the whole store as it was
    and posts and prints nothing. *)
Theorem other_channels_untouched {message : Type}
    (format : event → streamer_config → pydict → pydict → message)
    (network : nat → string → message → post_outcome)
    streamer thresholds current (state state' : store) fx :
  process_streamer format network streamer thresholds current state
  = Ok (state', fx) →
  (∀ key, channel_id streamer ≠ Some key → state' !! key = state !! key)
  ∧ (channel_id streamer = None ∨ channel_id streamer = Some "" →
     state' = state ∧ posted fx = [] ∧ output fx = []).
Proof.
  unfold process_streamer. intros Hrun.
  destruct (channel_id streamer) as [id|] eqn:Hid.
  - case_bool_decide as Hempty.
    + simplify_eq. split; [done|]. by intros _.
    + destruct (detect thresholds (default ∅ (state !! id)) current)
        as [[events s]|e]; simpl in Hrun; [|done].
      simplify_eq. split.
      * intros key Hkey. apply lookup_insert_ne. congruence.
      * intros [?|?]; congruence.
  - simplify_eq. split; [done|]. by intros _.
Qed.

(** A run for one channel, seen from another. *)
Lemma other_channels_untouched_witness :
  (∀ key, channel_id streamer_with_webhook ≠ Some key →
     (<["a872c0594e60" :=
          to_dict {| is_live := PBool true; title := PStr "B";
                     category := PStr "C"; viewers := PInt 350;
                     passed_thresholds := PList [100; 300] |}]> one_channel)
       !! key
     = one_channel !! key)
  ∧ (channel_id streamer_with_webhook = None
     ∨ channel_id streamer_with_webhook = Some "" →
     <["a872c0594e60" :=
          to_dict {| is_live := PBool true; title := PStr "B";
                     category := PStr "C"; viewers := PInt 350;
                     passed_thresholds := PList [100; 300] |}]> one_channel
     = one_channel
     ∧ posted
         (send_all plain_format failing_network streamer_with_webhook
            "https://discord.example/hook" live_observation live_last
            [EvTitleChange; EvThresholdCross 300]
            {| posted := []; output := [] |}) = []
     ∧ output
         (send_all plain_format failing_network streamer_with_webhook
            "https://discord.example/hook" live_observation live_last
            [EvTitleChange; EvThresholdCross 300]
            {| posted := []; output := [] |}) = []).
Proof.
  apply (other_channels_untouched plain_format failing_network
           streamer_with_webhook [100; 300; 500] live_observation
           one_channel).
  vm_compute. reflexivity.
Defined.

(** X8. With a webhook configured, [process_streamer] posts one message per
    event, in the order of the events and all to that webhook, whatever the
    network answers or raises on the way (a failed post does not stop the
    loop); without a webhook (missing, null or empty) it posts nothing. *)
Theorem one_post_per_event {message : Type}
    (format : event → streamer_config → pydict → pydict → message)
    (network : nat → string → message → post_outcome)
    streamer thresholds current (state : store) key l :
  channel_id streamer = Some key → key ≠ "" →
  stored_passed (default ∅ (state !! key)) l →
  ∃ events s fx,
    detect thresholds (default ∅ (state !! key)) current = Ok (events, s)
    ∧ process_streamer format network streamer thresholds current state
      = Ok (<[key := to_dict s]> state, fx)
    ∧ posted fx
      = match webhook_url streamer with
        | Some webhook =>
            if bool_decide (webhook = "") then []
            else (λ ev, (webhook,
                         format ev streamer current
                           (default ∅ (state !! key)))) <$> events
        | None => []
        end.
Proof.
  intros Hid Hkey Hl.
  pose proof (detect_closed_form thresholds _ current l Hl) as Hrun.
  eexists _, _, _. split; [exact Hrun|].
  split; [by apply process_streamer_run|].
  destruct (webhook_url streamer) as [webhook|]; [|done].
  match goal with |- context [match ?evs with [] => _ | _ :: _ => _ end] =>
    destruct evs eqn:Hevs end.
  - by case_bool_decide.
  - case_bool_decide; [done|]. by rewrite send_all_posted.
Qed.

(** A live step with two events, on a network where every post fails. *)
Lemma one_post_per_event_witness :
  ∃ events s fx,
    detect [100; 300; 500] (default ∅ (one_channel !! "a872c0594e60"))
      live_observation = Ok (events, s)
    ∧ process_streamer plain_format failing_network streamer_with_webhook
        [100; 300; 500] live_observation one_channel
      = Ok (<["a872c0594e60" := to_dict s]> one_channel, fx)
    ∧ posted fx
      = match webhook_url streamer_with_webhook with
        | Some webhook =>
            if bool_decide (webhook = "") then []
            else (λ ev, (webhook,
                         plain_format ev streamer_with_webhook
                           live_observation
                           (default ∅ (one_channel !! "a872c0594e60"))))
                 <$> events
        | None => []
        end.
Proof.
  apply (one_post_per_event plain_format failing_network
           streamer_with_webhook [100; 300; 500] live_observation
           one_channel "a872c0594e60" [100]);
    [reflexivity | discriminate | reflexivity].
Defined.

(** X9. [process_streamer] prints at most one line per event, and prints
    nothing when every post is answered with a status below 400. *)
Theorem printed_lines {message : Type}
    (format : event → streamer_config → pydict → pydict → message)
    (network : nat → string → message → post_outcome)
    streamer thresholds current (state : store) key l :
  channel_id streamer = Some key → key ≠ "" →
  stored_passed (default ∅ (state !! key)) l →
  ∃ events s fx,
    detect thresholds (default ∅ (state !! key)) current = Ok (events, s)
    ∧ process_streamer format network streamer thresholds current state
      = Ok (<[key := to_dict s]> state, fx)
    ∧ (length (output fx) ≤ length events)%nat
    ∧ ((∀ n url msg, ∃ status text,
          network n url msg = Responded status text ∧ status < 400) →
       output fx = []).
Proof.
  intros Hid Hkey Hl.
  pose proof (detect_closed_form thresholds _ current l Hl) as Hrun.
  eexists _, _, _. split; [exact Hrun|].
  split; [by apply process_streamer_run|].
  destruct (webhook_url streamer) as [webhook|]; [|simpl; split; [lia|done]].
  match goal with |- context [match ?evs with [] => _ | _ :: _ => _ end] =>
    destruct evs eqn:Hevs end; [simpl; split; [lia|done]|].
  case_bool_decide; [simpl; split; [lia|done]|]. split.
  - etrans; [apply send_all_output_length|]. simpl. lia.
  - intros Hquiet. by rewrite send_all_output_quiet.
Qed.

(** A live step with two events, on a network that answers 204. *)
Lemma printed_lines_witness :
  ∃ events s fx,
    detect [100; 300; 500] (default ∅ (one_channel !! "a872c0594e60"))
      live_observation = Ok (events, s)
    ∧ process_streamer plain_format quiet_network streamer_with_webhook
        [100; 300; 500] live_observation one_channel
      = Ok (<["a872c0594e60" := to_dict s]> one_channel, fx)
    ∧ (length (output fx) ≤ length events)%nat
    ∧ ((∀ n url msg, ∃ status text,
          quiet_network n url msg = Responded status text ∧ status < 400) →
       output fx = []).
Proof.
  apply (printed_lines plain_format quiet_network streamer_with_webhook
           [100; 300; 500] live_observation one_channel "a872c0594e60"
           [100]);
    [reflexivity | discriminate | reflexivity].
Defined.

(** X10. Two runs of [process_streamer] for channels with different
    identifiers commute: in either order both return, with the same final
    store and, for each channel, the same posts and printed lines.  (This is
    what lets [main] run the channels concurrently.) *)
Theorem distinct_channels_commute {message : Type}
    (format : event → streamer_config → pydict → pydict → message)
    (network : nat → string → message → post_outcome)
    streamerA streamerB thresholds currentA currentB (state : store)
    keyA keyB lA lB :
  channel_id streamerA = Some keyA → channel_id streamerB = Some keyB →
  keyA ≠ "" → keyB ≠ "" → keyA ≠ keyB →
  stored_passed (default ∅ (state !! keyA)) lA →
  stored_passed (default ∅ (state !! keyB)) lB →
  ∃ afterA afterB final fxA fxB,
    process_streamer format network streamerA thresholds currentA state
    = Ok (afterA, fxA)
    ∧ process_streamer format network streamerB thresholds currentB afterA
      = Ok (final, fxB)
    ∧ process_streamer format network streamerB thresholds currentB state
      = Ok (afterB, fxB)
    ∧ process_streamer format network streamerA thresholds currentA afterB
      = Ok (final, fxA).
Proof.
  intros HidA HidB HkeyA HkeyB Hne HlA HlB.
  destruct (detect thresholds (default ∅ (state !! keyA)) currentA)
    as [[eventsA sA]|e] eqn:HrunA;
    [|by rewrite (detect_closed_form _ _ _ lA HlA) in HrunA].
  destruct (detect thresholds (default ∅ (state !! keyB)) currentB)
    as [[eventsB sB]|e] eqn:HrunB;
    [|by rewrite (detect_closed_form _ _ _ lB HlB) in HrunB].
  pose proof (process_streamer_run format network streamerA thresholds
                currentA state keyA eventsA sA HidA HkeyA HrunA) as HA.
  pose proof (process_streamer_run format network streamerB thresholds
                currentB state keyB eventsB sB HidB HkeyB HrunB) as HB.
  assert (HrunB' :
    detect thresholds
      (default ∅ ((<[keyA := to_dict sA]> state) !! keyB)) currentB
    = Ok (eventsB, sB)) by (by rewrite lookup_insert_ne).
  assert (HrunA' :
    detect thresholds
      (default ∅ ((<[keyB := to_dict sB]> state) !! keyA)) currentA
    = Ok (eventsA, sA)) by (by rewrite lookup_insert_ne).
  pose proof (process_streamer_run format network streamerB thresholds
                currentB _ keyB eventsB sB HidB HkeyB HrunB') as HB'.
  pose proof (process_streamer_run format network streamerA thresholds
                currentA _ keyA eventsA sA HidA HkeyA HrunA') as HA'.
  rewrite lookup_insert_ne in HB' by done.
  rewrite lookup_insert_ne in HA' by done.
  rewrite (insert_insert_ne state keyA keyB) in HA' by done.
  eexists _, _, _, _, _. split; [exact HA|].
  split; [exact HB'|]. split; [exact HB|]. exact HA'.
Qed.

(** Two channels, the second one not stored yet. *)
Lemma distinct_channels_commute_witness :
  ∃ afterA afterB final fxA fxB,
    process_streamer plain_format failing_network streamer_with_webhook
      [100; 300; 500] live_observation one_channel = Ok (afterA, fxA)
    ∧ process_streamer plain_format failing_network other_streamer
        [100; 300; 500] restart_observation afterA = Ok (final, fxB)
    ∧ process_streamer plain_format failing_network other_streamer
        [100; 300; 500] restart_observation one_channel = Ok (afterB, fxB)
    ∧ process_streamer plain_format failing_network streamer_with_webhook
        [100; 300; 500] live_observation afterB = Ok (final, fxA).
Proof.
  apply (distinct_channels_commute plain_format failing_network
           streamer_with_webhook other_streamer [100; 300; 500]
           live_observation restart_observation one_channel
           "a872c0594e60" "1755e5012c4d" [100] []);
    [reflexivity | reflexivity | discriminate | discriminate | discriminate
    | reflexivity | reflexivity].
Defined.

(** ** [fetch_live_info] *)

Lemma live_info_is_live b t c v st :
  live_info b t c v st !! "is_live" = Some (PBool b).
Proof. reflexivity. Qed.

Lemma live_detail_is_live upper content info :
  live_detail upper content = Some info →
  ∃ b, info !! "is_live" = Some (PBool b).
Proof.
  unfold live_detail. intros H.
  destruct (py_truthy (get content "status")); simpl in H.
  - destruct (status_upper upper (get content "status")); simpl in H;
      [|done].
    simplify_eq. eexists. apply live_info_is_live.
  - simplify_eq. eexists. apply live_info_is_live.
Qed.

Lemma live_status_is_live upper content info :
  live_status upper content = Some info →
  ∃ b, info !! "is_live" = Some (PBool b).
Proof.
  unfold live_status. intros H.
  destruct (py_truthy (get content "status")); simpl in H.
  - destruct (status_upper upper (get content "status")); simpl in H;
      [|done].
    simplify_eq. eexists. apply live_info_is_live.
  - simplify_eq. eexists. apply live_info_is_live.
Qed.

(** X11. Whatever the three endpoints answer (an exception, any status, a
    body that does not parse or is not an object, a content or a status of
    an unexpected type), [fetch_live_info] returns a dict that has the key
    ["is_live"] with a boolean. *)
Theorem fetch_is_live_boolean (upper : string → string)
    (detail channel polling : http_reply) :
  ∃ b, fetch_live_info upper detail channel polling !! "is_live"
       = Some (PBool b).
Proof.
  unfold fetch_live_info.
  destruct (reply_content detail ≫= live_detail upper) as [info|] eqn:E1.
  { destruct (reply_content detail) as [content|]; [|done].
    by apply (live_detail_is_live upper content). }
  destruct (reply_content channel) as [content|]; simpl.
  { eexists. apply live_info_is_live. }
  destruct (reply_content polling ≫= live_status upper) as [info|] eqn:E3.
  { destruct (reply_content polling) as [content|]; [|done].
    by apply (live_status_is_live upper content). }
  by exists false.
Qed.

(** X12. When none of the three attempts gives a result, the observation is
    [{"is_live": False}], and on a stored state that is live the detector
    then emits exactly an end event, keeps title, category and the passed
    thresholds and stores no viewers: an outage and the end of a stream are
    not told apart. *)
Theorem outage_ends_the_stream (upper : string → string)
    (detail channel polling : http_reply) thresholds last l :
  reply_content detail ≫= live_detail upper = None →
  reply_content channel = None →
  reply_content polling ≫= live_status upper = None →
  stored_passed last l →
  was_live last = true →
  fetch_live_info upper detail channel polling = <["is_live" := PBool false]> ∅
  ∧ detect thresholds last (fetch_live_info upper detail channel polling)
    = Ok ([EvEnd],
          {| is_live := PBool false; title := get last "title";
             category := get last "category"; viewers := PNone;
             passed_thresholds := PList l |}).
Proof.
  intros H1 H2 H3 Hl Hwas.
  assert (Hfetch : fetch_live_info upper detail channel polling
                   = <["is_live" := PBool false]> ∅).
  { unfold fetch_live_info. by rewrite H1, H2, H3. }
  split; [done|]. rewrite Hfetch.
  rewrite (detect_closed_form _ _ _ l Hl).
  unfold liveness_events, title_events, category_events, passed_before,
    crossed.
  rewrite Hwas. reflexivity.
Qed.

(** Three requests that fail in three ways, on a live stored state. *)
Lemma outage_ends_the_stream_witness :
  fetch_live_info upper_of_capitals GetRaised (Answered 503 None)
    (Answered 200 None) = <["is_live" := PBool false]> ∅
  ∧ detect [100; 300; 500] live_last
      (fetch_live_info upper_of_capitals GetRaised (Answered 503 None)
         (Answered 200 None))
    = Ok ([EvEnd],
          {| is_live := PBool false; title := get live_last "title";
             category := get live_last "category"; viewers := PNone;
             passed_thresholds := PList [100] |}).
Proof.
  apply (outage_ends_the_stream upper_of_capitals GetRaised
           (Answered 503 None) (Answered 200 None) [100; 300; 500]
           live_last [100]); reflexivity.
Defined.

(** X13. When the first attempt gives no result and the second endpoint
    reports the channel open, the observation has no title, category or
    viewers; on a stored state that is live the detector then emits no event
    at all, keeps title, category and the passed thresholds and stores no
    viewers, however many viewers the stream has. *)
Theorem fallback_observation_is_silent (upper : string → string)
    (detail channel polling : http_reply) content thresholds last l :
  reply_content detail ≫= live_detail upper = None →
  reply_content channel = Some content →
  py_truthy (get content "openLive") = true →
  stored_passed last l →
  was_live last = true →
  detect thresholds last (fetch_live_info upper detail channel polling)
  = Ok ([],
        {| is_live := PBool true; title := get last "title";
           category := get last "category"; viewers := PNone;
           passed_thresholds := PList l |}).
Proof.
  intros H1 H2 Hopen Hl Hwas.
  assert (Hfetch : fetch_live_info upper detail channel polling
                   = live_info true PNone PNone PNone PNone).
  { unfold fetch_live_info. rewrite H1, H2. simpl.
    unfold channel_open. by rewrite Hopen. }
  rewrite Hfetch, (detect_closed_form _ _ _ l Hl).
  unfold liveness_events, title_events, category_events, passed_before,
    crossed.
  rewrite Hwas. reflexivity.
Qed.

(** The first request times out and the second reports an open channel. *)
Lemma fallback_observation_is_silent_witness :
  detect [100; 300; 500] live_last
    (fetch_live_info upper_of_capitals GetRaised
       (Answered 200
          (Some (DataObject
                   (Some (ContentObject (<["openLive" := PBool true]> ∅))))))
       GetRaised)
  = Ok ([],
        {| is_live := PBool true; title := get live_last "title";
           category := get live_last "category"; viewers := PNone;
           passed_thresholds := PList [100] |}).
Proof.
  apply (fallback_observation_is_silent upper_of_capitals GetRaised
           (Answered 200
              (Some (DataObject
                       (Some (ContentObject
                                (<["openLive" := PBool true]> ∅))))))
           GetRaised (<["openLive" := PBool true]> ∅) [100; 300; 500]
           live_last [100]); reflexivity.
Defined.

(** ** [main]: the thresholds *)

Lemma py_int_finite x n :
  finite_number x = true → as_number x = Some n → ∃ z, py_int n = inr z.
Proof.
  destruct x as [|b|z|[|s|q]|s|l]; simpl; intros Hfin Hn; simplify_eq;
    simpl; eauto.
Qed.

Lemma threshold_ints_finite thresholds :
  Forall (λ x, finite_number x = true) thresholds →
  ∃ zs,
    threshold_ints thresholds = inr zs
    ∧ ∀ z, z ∈ zs ↔
        ∃ x n, x ∈ thresholds ∧ as_number x = Some n ∧ py_int n = inr z.
Proof.
  induction 1 as [|x rest Hx Hrest (zs & Hzs & Hmem)]; simpl.
  - exists []. split; [done|]. intros z. rewrite elem_of_nil.
    split; [done|]. intros (x & n & Hin & _). by apply elem_of_nil in Hin.
  - rewrite Hzs. destruct (as_number x) as [n|] eqn:Hn.
    + destruct (py_int_finite x n Hx Hn) as [z0 Hz0]. rewrite Hz0.
      eexists. split; [reflexivity|]. intros z.
      rewrite elem_of_cons, Hmem. split.
      * intros [->|(y & m & Hy & Hm & Hint)].
        -- exists x, n. split; [left|done].
        -- exists y, m. split; [by right|done].
      * intros (y & m & Hy & Hm & Hint).
        apply elem_of_cons in Hy as [->|Hy].
        -- left. congruence.
        -- right. by exists y, m.
    + exists zs. split; [done|]. intros z. rewrite Hmem. split.
      * intros (y & m & Hy & Hm & Hint). exists y, m. split; [by right|done].
      * intros (y & m & Hy & Hm & Hint).
        apply elem_of_cons in Hy as [->|Hy]; [congruence|].
        by exists y, m.
Qed.

(** X14. For configured thresholds without a NaN or an infinity, [main]
    obtains a strictly ascending list (sorted, without duplicates) that
    holds exactly the [int] of every entry that is an int, a bool or a
    float; entries of other types (texts, null) are dropped. *)
Theorem main_thresholds_sorted thresholds :
  Forall (λ x, finite_number x = true) thresholds →
  ∃ ths,
    main_thresholds thresholds = inr ths
    ∧ StronglySorted Z.lt ths
    ∧ ∀ z, z ∈ ths ↔
        ∃ x n, x ∈ thresholds ∧ as_number x = Some n ∧ py_int n = inr z.
Proof.
  intros Hfin. destruct (threshold_ints_finite thresholds Hfin)
    as (zs & Hzs & Hmem).
  unfold main_thresholds. rewrite Hzs. eexists. split; [reflexivity|].
  split; [apply sorted_elements_strict|].
  intros z. by rewrite elem_of_sorted, elem_of_elements, elem_of_list_to_set.
Qed.

(** Thresholds out of order, twice the same, one as a float, one as a
    text. *)
Lemma main_thresholds_sorted_witness :
  ∃ ths,
    main_thresholds
      [PInt 500; PInt 100; PFloat (FFin (601 # 2)); PInt 100; PStr "1000"]
    = inr ths
    ∧ StronglySorted Z.lt ths
    ∧ ∀ z, z ∈ ths ↔
        ∃ x n,
          x ∈ [PInt 500; PInt 100; PFloat (FFin (601 # 2)); PInt 100;
               PStr "1000"]
          ∧ as_number x = Some n ∧ py_int n = inr z.
Proof.
  apply (main_thresholds_sorted
           [PInt 500; PInt 100; PFloat (FFin (601 # 2)); PInt 100;
            PStr "1000"]).
  repeat constructor.
Defined.

(** X15. A NaN or an infinity among the configured thresholds makes [main]
    raise ([ValueError] or [OverflowError]) when it converts them, before
    any channel is fetched. *)
Theorem main_thresholds_raises thresholds x :
  x ∈ thresholds → finite_number x = false →
  ∃ e, main_thresholds thresholds = inl e.
Proof.
  intros Hin Hx. unfold main_thresholds.
  cut (∃ e, threshold_ints thresholds = inl e).
  { intros [e ->]. by exists e. }
  induction thresholds as [|y rest IH]; [by apply elem_of_nil in Hin|].
  simpl. apply elem_of_cons in Hin as [<-|Hin].
  - destruct x as [|b|z|[|s|q]|s|l]; simpl in *; try done; eauto.
  - destruct (IH Hin) as [e ->].
    destruct (as_number y) as [n|]; [|by exists e].
    destruct (py_int n); eauto.
Qed.

(** An infinity after a proper threshold. *)
Lemma main_thresholds_raises_witness :
  ∃ e, main_thresholds [PInt 100; PFloat (FInf true)] = inl e.
Proof.
  apply (main_thresholds_raises [PInt 100; PFloat (FInf true)]
           (PFloat (FInf true))).
  - right. left.
  - reflexivity.
Defined.

(** X16. With the thresholds that [main] obtains, the threshold events of a
    step come in strictly ascending order: no threshold is notified twice in
    one step. *)
Theorem configured_thresholds_cross_once config thresholds last current l :
  main_thresholds config = inr thresholds →
  stored_passed last l →
  ∃ events s,
    detect thresholds last current = Ok (events, s)
    ∧ StronglySorted Z.lt (crossings_of events).
Proof.
  intros Hmain Hl. eexists _, _. split; [by apply detect_closed_form|].
  rewrite crossings_of_closed.
  apply strictly_sorted_of_NoDup; [apply sorted_Sorted|].
  apply sorted_NoDup, crossed_NoDup.
  unfold main_thresholds in Hmain.
  destruct (threshold_ints config) as [e|zs]; simplify_eq.
  apply sorted_NoDup, NoDup_elements.
Qed.

(** Thresholds configured twice and out of order. *)
Lemma configured_thresholds_cross_once_witness :
  ∃ events s,
    detect [100; 300; 500] live_last live_observation = Ok (events, s)
    ∧ StronglySorted Z.lt (crossings_of events).
Proof.
  apply (configured_thresholds_cross_once
           [PInt 500; PInt 100; PInt 300; PInt 100] [100; 300; 500]
           live_last live_observation [100]).
  - vm_compute. reflexivity.
  - reflexivity.
Defined.

(** ** [load_config]: webhook placeholders *)

Lemma removelast_snoc {A} (xs : list A) (x : A) :
  removelast (xs ++ [x]) = xs.
Proof.
  induction xs as [|y xs IH]; simpl; [done|].
  rewrite IH. by destruct xs.
Qed.

(** A text that neither begins nor ends with whitespace is its own
    [strip]. *)
Lemma strip_guarded isspace (a b : N) (mid : list N) :
  isspace a = false → isspace b = false →
  strip isspace (a :: mid ++ [b]) = a :: mid ++ [b].
Proof.
  intros Ha Hb. unfold strip. simpl. rewrite Ha.
  rewrite reverse_cons, reverse_app, reverse_singleton. simpl.
  rewrite Hb.
  rewrite reverse_cons, reverse_app, reverse_singleton, reverse_involutive.
  reflexivity.
Qed.

Lemma contains_starts_with needle s :
  starts_with needle s = true → contains needle s = true.
Proof. intros H. destruct s; simpl in *; by rewrite H. Qed.

(** X17. A webhook that is exactly the placeholder [${NAME}] is replaced by
    the value of the environment variable [NAME] when that variable is set
    and not empty, and is left as the literal placeholder otherwise.  (36
    and 125 are the code points of [$] and [}].) *)
Theorem placeholder_resolved (isspace : N → bool)
    (environ : gmap (list N) (list N)) (var : list N) :
  isspace 36%N = false → isspace 125%N = false →
  expand_webhook isspace environ (Some (text "${" ++ var ++ text "}"))
  = match environ !! var with
    | Some env_val =>
        if bool_decide (env_val = [])
        then Some (text "${" ++ var ++ text "}")
        else Some env_val
    | None => Some (text "${" ++ var ++ text "}")
    end.
Proof.
  intros Hdollar Hbrace. unfold expand_webhook.
  rewrite (contains_starts_with (text "${")) by reflexivity.
  assert (Hstrip : strip isspace (text "${" ++ var ++ text "}")
                   = text "${" ++ var ++ text "}").
  { change (text "${" ++ var ++ text "}")
      with (36%N :: (123%N :: var) ++ [125%N]).
    by apply strip_guarded. }
  assert (Hkey : slice_2_m1 (text "${" ++ var ++ text "}") = var).
  { unfold slice_2_m1.
    change (text "${" ++ var ++ text "}")
      with (36%N :: 123%N :: var ++ [125%N]).
    simpl. by rewrite drop_0, removelast_snoc. }
  by rewrite Hstrip, Hkey.
Qed.

(** The placeholder of the example configuration, with its variable set. *)
Lemma placeholder_resolved_witness :
  expand_webhook str_isspace one_variable
    (Some (text "${" ++ text "WEBHOOK_MBEUNG" ++ text "}"))
  = match one_variable !! text "WEBHOOK_MBEUNG" with
    | Some env_val =>
        if bool_decide (env_val = [])
        then Some (text "${" ++ text "WEBHOOK_MBEUNG" ++ text "}")
        else Some env_val
    | None => Some (text "${" ++ text "WEBHOOK_MBEUNG" ++ text "}")
    end.
Proof.
  apply (placeholder_resolved str_isspace one_variable
           (text "WEBHOOK_MBEUNG")); reflexivity.
Defined.

(** X18. Expanding the placeholders never changes whether a streamer has a
    webhook: a missing, null or empty webhook stays as it is, a webhook
    without [${] stays as it is, and any other webhook stays non-empty (it
    is either kept or replaced by a non-empty value). *)
Theorem expansion_keeps_webhook_configured (isspace : N → bool)
    (environ : gmap (list N) (list N)) (webhook : option (list N)) :
  (webhook = None ∨ webhook = Some [] →
   expand_webhook isspace environ webhook = webhook)
  ∧ (∀ url, webhook = Some url → contains (text "${") url = false →
     expand_webhook isspace environ webhook = webhook)
  ∧ (∀ url, webhook = Some url → url ≠ [] →
     ∃ url', expand_webhook isspace environ webhook = Some url' ∧ url' ≠ []).
Proof.
  split; [|split].
  - by intros [->| ->].
  - intros url -> Hno. unfold expand_webhook. by rewrite Hno.
  - intros url -> Hurl. unfold expand_webhook.
    destruct (contains (text "${") url); [|by exists url].
    destruct (environ !! _) as [env_val|]; [|by exists url].
    case_bool_decide; [by exists url|by exists env_val].
Qed.

(** ** Whitespace around a placeholder *)

(** [str.strip] removes the whitespace of Unicode too: an ideographic space
    (U+3000) and a no-break space (U+00A0) around a placeholder do not keep
    it from being resolved. *)
Example placeholder_between_wide_spaces :
  expand_webhook str_isspace one_variable
    (Some ([12288%N] ++ text "${WEBHOOK_MBEUNG}" ++ [160%N; 10%N]))
  = Some (text "https://discord.example/hook").
Proof. vm_compute. reflexivity. Qed.
